(** * The outbound invocation pipeline ([testApi]) and the error classifier
      ([handleApiError]), embedded from [lib/api.ts] and
      [lib/error-handling.ts].

    JavaScript strings are modelled as [string]; every literal the code
    compares against or searches for is ASCII, so emptiness, equality,
    [startsWith] and [includes] agree with the byte-level functions used
    here.  Asynchronous calls are modelled in direct style: [await e] is the
    completion of [e]; a rejected promise is a thrown value. *)

From Stdlib Require Import ZArith Bool List Lia.
From Stdlib Require Import Floats.PrimFloat.
From Stdlib Require Strings.String Strings.Ascii.
From stdpp Require Import base option list strings gmap.

Local Open Scope Z_scope.

(* ===================================================================== *)
(** ** JavaScript strings *)
(* ===================================================================== *)

Module JsString.

(** [s.startsWith(p)] *)
Definition startsWith (s p : string) : bool :=
  Stdlib.Strings.String.prefix p s.

(** [s.includes(p)]: [p] occurs somewhere in [s]. *)
Fixpoint includes (s p : string) : bool :=
  Stdlib.Strings.String.prefix p s ||
  match s with
  | EmptyString => false
  | String _ rest => includes rest p
  end.

(** [a === b] on strings. *)
Definition eqb (a b : string) : bool := Stdlib.Strings.String.eqb a b.

(** A string is falsy exactly when it is empty. *)
Definition truthy (s : string) : bool :=
  match s with
  | EmptyString => false
  | String _ _ => true
  end.

End JsString.

(* ===================================================================== *)
(** ** JavaScript values, as far as the decoded response body needs them *)
(* ===================================================================== *)

Local Unset Elimination Schemes.
Inductive JsValue : Type :=
| JUndefined
| JNull
| JBool (b : bool)
| JNum (f : float)
| JStr (s : string)
| JArr (items : list JsValue)
| JObj (fields : list (string * JsValue)).
Local Set Elimination Schemes.

(** ToBoolean: [undefined], [null], [false], [0], [-0], [NaN] and the empty
    string are falsy, everything else (all arrays and objects) is truthy. *)
Definition truthy (v : JsValue) : bool :=
  match v with
  | JUndefined | JNull => false
  | JBool b => b
  | JNum f => negb (is_zero f || is_nan f)
  | JStr s => JsString.truthy s
  | JArr _ | JObj _ => true
  end.

(** Own-property lookup in an object literal produced by the JSON decoder
    (keys are unique there). *)
Fixpoint assoc (k : string) (fields : list (string * JsValue)) : option JsValue :=
  match fields with
  | [] => None
  | (k', v) :: rest => if JsString.eqb k k' then Some v else assoc k rest
  end.

(** An error object: what [instanceof Error] recognises, with the two
    properties the code reads. *)
Record ErrorObj : Type := mkError {
  err_message : string;
  err_stack : option string;
}.

(** Anything that can be thrown (or a promise be rejected with). *)
Inductive Thrown : Type :=
| ThrownError (e : ErrorObj)     (* error instanceof Error *)
| ThrownOther (v : JsValue).     (* any other value *)

Definition instanceofError (t : Thrown) : bool :=
  match t with
  | ThrownError _ => true
  | ThrownOther _ => false
  end.

(* ===================================================================== *)
(** ** Data of the pipeline *)
(* ===================================================================== *)

Record ApiConfig : Type := mkApiConfig {
  method : string;
  url : string;
  content_type : string;
}.

Record TestApiParams : Type := mkParams {
  workerId : string;
  apiAuthToken : string;
  apiConfig : ApiConfig;
  variables : gmap string string;     (* Record<string, string> *)
  workflowId : option string;         (* workflowId?: string *)
}.

(** The value [testApi] returns: [{ success: true, data: { response } }]. *)
Record ApiResponse : Type := mkApiResponse {
  success : bool;
  data_response : JsValue;
}.

(** [details] of a [workflow_logs] row: the two object literals the code
    writes. *)
Inductive Details : Type :=
| ResponseDetails (status : Z) (response : JsValue)            (* { status, response } *)
| FailureDetails (error : string) (stack : option string).     (* { error, stack } *)

(** A row of the [workflow_logs] table. *)
Record LogRow : Type := mkRow {
  workflow_id : string;
  level : string;
  message : string;
  details : Details;
}.

(** The second argument of [fetch]. *)
Record FetchInit : Type := mkInit {
  init_method : string;
  init_contentType : string;          (* headers['Content-Type'] *)
  init_authorization : string;        (* headers['Authorization'] *)
  init_body_workerId : string;        (* JSON.stringify({ workerId, variables }) *)
  init_body_variables : gmap string string;
}.

(** What the code reads of a [Response].  [resp_json] is the completion of
    [response.json()]: the decoded body, or the rejection. *)
Record Response : Type := mkResponse {
  resp_status : Z;
  resp_statusText : string;
  resp_json : Thrown + JsValue;
}.

(** [response.ok]: the status is in the range 200-299 (Fetch standard). *)
Definition resp_ok (r : Response) : bool :=
  (200 <=? resp_status r) && (resp_status r <=? 299).

(** The remote end: how [fetch(url, init)] completes. *)
Definition Network : Type := string -> FetchInit -> Thrown + Response.

(** The object [logError] prints. *)
Record ConsolePayload : Type := mkPayload {
  pl_message : string;
  pl_stack : option string;
  pl_workerId : string;               (* context.workerId *)
  pl_url : string;                    (* context.url *)
  pl_method : string;                 (* context.method *)
}.

(** Observable effects, in the order they happen. *)
Inductive Event : Type :=
| EvDelete (wf msg : string)          (* delete where workflow_id = wf, message = msg *)
| EvInsert (row : LogRow)             (* workflow_logs: insert row *)
| EvFetch (target : string) (init : FetchInit)
| EvConsoleError (label : string) (payload : ConsolePayload)
| EvToastError (text : string).

Definition is_store_access (e : Event) : bool :=
  match e with
  | EvDelete _ _ | EvInsert _ => true
  | _ => false
  end.

Definition is_network_call (e : Event) : bool :=
  match e with
  | EvFetch _ _ => true
  | _ => false
  end.

(* ===================================================================== *)
(** ** Completions and the effect monad *)
(* ===================================================================== *)

Inductive Completion (A : Type) : Type :=
| Return (a : A)
| Throw (t : Thrown).
Arguments Return {A} a.
Arguments Throw {A} t.

(** How a computation ends: its completion, the [workflow_logs] table it
    leaves, and the effects it performed, oldest first. *)
Record Outcome (A : Type) : Type := mkOutcome {
  completion : Completion A;
  final : list LogRow;
  trace : list Event;
}.
Arguments mkOutcome {A} _ _ _.
Arguments completion {A} _.
Arguments final {A} _.
Arguments trace {A} _.

(** A computation runs from a state of the [workflow_logs] table. *)
Definition M (A : Type) : Type := list LogRow -> Outcome A.

Definition ret {A} (a : A) : M A := fun st => mkOutcome (Return a) st [].

Definition throw {A} (t : Thrown) : M A := fun st => mkOutcome (Throw t) st [].

(** The effects [tr] happened before the computation that ended in [o]. *)
Definition after {A} (tr : list Event) (o : Outcome A) : Outcome A :=
  match o with
  | mkOutcome c st tr' => mkOutcome c st (tr ++ tr')
  end.

Definition bind {A B} (m : M A) (k : A -> M B) : M B :=
  fun st =>
    match m st with
    | mkOutcome (Return a) st' tr => after tr (k a st')
    | mkOutcome (Throw t) st' tr => mkOutcome (Throw t) st' tr
    end.

(** [try { m } catch (error) { h error }] *)
Definition try_catch {A} (m : M A) (h : Thrown -> M A) : M A :=
  fun st =>
    match m st with
    | mkOutcome (Return a) st' tr => mkOutcome (Return a) st' tr
    | mkOutcome (Throw t) st' tr => after tr (h t st')
    end.

Definition emit (e : Event) : M unit :=
  fun st => mkOutcome (Return tt) st [e].

#[global] Instance M_ret : MRet M := @ret.
#[global] Instance M_bind : MBind M := fun A B k m => bind m k.

(** [if (c) { m }] *)
Definition when (c : bool) (m : M unit) : M unit :=
  if c then m else ret tt.

(* ===================================================================== *)
(** ** The record store ([supabase.from('workflow_logs')]) *)
(* ===================================================================== *)

(** The table is an in-memory list of rows.  The client resolves its
    promises with an error object instead of rejecting them and the code
    never reads that object, so [delete] and [insert] always complete
    normally here. *)

Definition row_matches (wf msg : string) (r : LogRow) : bool :=
  JsString.eqb (workflow_id r) wf && JsString.eqb (message r) msg.

(** [.delete().eq('workflow_id', wf).eq('message', msg)] *)
Definition store_delete (wf msg : string) : M unit :=
  fun st =>
    mkOutcome (Return tt)
              (List.filter (fun r => negb (row_matches wf msg r)) st)
              [EvDelete wf msg].

(** [.insert(row)] *)
Definition store_insert (row : LogRow) : M unit :=
  fun st => mkOutcome (Return tt) (st ++ [row]) [EvInsert row].

(* ===================================================================== *)
(** ** The code *)
(* ===================================================================== *)

Section Engine.

(** What evaluating [new ApiError(arg)] throws into the surrounding code.
    The source declares [ApiError] as an interface only, so no value of
    that name exists when the code runs; the properties below are proved
    for whatever the expression yields, and [sampleApiError] is what it
    yields in the code as shipped. *)
Variable ApiError : JsValue -> Thrown.

(** The [stack] property the engine gives an [Error] built by
    [new Error(msg)]. *)
Variable captureStack : string -> option string.

(** The [TypeError] the engine raises when property [k] of [null] is read. *)
Variable nullRead : string -> ErrorObj.

(** [new Error(msg)] *)
Definition newError (msg : string) : Thrown :=
  ThrownError (mkError msg (captureStack msg)).

(** Reading a property of [null] or [undefined] raises. *)
Definition readable (v : JsValue) : bool :=
  match v with
  | JUndefined | JNull => false
  | _ => true
  end.

(** The value of [data.k] for the property names the code reads ([result],
    [responseText], [response], [message]); none of them is inherited by
    objects, strings, numbers, booleans or arrays. *)
Definition field (v : JsValue) (k : string) : JsValue :=
  match v with
  | JObj fields => default JUndefined (assoc k fields)
  | _ => JUndefined
  end.

(** The expression [data.k]. *)
Definition getProp (v : JsValue) (k : string) : M JsValue :=
  if readable v then mret (field v k) else throw (ThrownError (nullRead k)).

(** [a || b]: [b] is evaluated only when [a] is falsy. *)
Definition orElse (a b : M JsValue) : M JsValue :=
  x ← a; if truthy x then mret x else b.

(** [variables.k === undefined] *)
Definition propUndefined (vars : gmap string string) (k : string) : bool :=
  match vars !! k with
  | None => true
  | Some _ => false
  end.

(** [await fetch(target, init)] *)
Definition fetch (net : Network) (target : string) (init : FetchInit) : M Response :=
  emit (EvFetch target init);;
  match net target init with
  | inl rejection => throw rejection
  | inr response => mret response
  end.

(** [await response.json()] *)
Definition json (r : Response) : M JsValue :=
  match resp_json r with
  | inl rejection => throw rejection
  | inr value => mret value
  end.

(** [logError({ context, error })] with [context = { workerId, url, method }] *)
Definition logError (ctxWorkerId ctxUrl ctxMethod : string) (error : Thrown) : M unit :=
  let errorMessage :=
    match error with
    | ThrownError e => err_message e
    | ThrownOther _ => "An unknown error occurred"
    end in
  let errorStack :=
    match error with
    | ThrownError e => err_stack e
    | ThrownOther _ => None
    end in
  emit (EvConsoleError "Error occurred:"
          (mkPayload errorMessage errorStack ctxWorkerId ctxUrl ctxMethod)).

(** The [Authorization] header of the request. *)
Definition authorization (apiAuthToken : string) : string :=
  if JsString.startsWith apiAuthToken "Bearer "
  then apiAuthToken
  else "Bearer " +:+ apiAuthToken.

(** The object literal passed to [fetch]. *)
Definition requestInit (p : TestApiParams) : FetchInit :=
  mkInit (method (apiConfig p)) (content_type (apiConfig p))
         (authorization (apiAuthToken p)) (workerId p) (variables p).

(** The body of the [try] block of [testApi]. *)
Definition attempt (net : Network) (p : TestApiParams) : M ApiResponse :=
  (* If this is an API test, clear previous test logs *)
  match workflowId p with
  | Some wf => when (JsString.truthy wf) (store_delete wf "API request successful")
  | None => mret tt
  end;;
  response ← fetch net (url (apiConfig p)) (requestInit p);
  data ← json response;
  responseText ←
    orElse (orElse (orElse (getProp data "result") (getProp data "responseText"))
                   (getProp data "response"))
           (getProp data "message");
  (* Only log if it's an API test or if there's an error *)
  match workflowId p with
  | Some wf =>
      when (JsString.truthy wf &&
            (negb (resp_ok response) || propUndefined (variables p) "workflow"))
        (store_insert
           (mkRow wf
                  (if resp_ok response then "info" else "error")
                  (if resp_ok response then "API request successful"
                   else "API request failed: " +:+ resp_statusText response)
                  (ResponseDetails (resp_status response) data)))
  | None => mret tt
  end;;
  (if negb (resp_ok response)
   then
     arg ← orElse (getProp data "message")
                  (mret (JStr ("API request failed: " +:+ resp_statusText response)));
     throw (ApiError arg)
   else mret tt);;
  shown ← orElse (orElse (mret responseText) (getProp data "result"))
                 (mret (JStr "No response received"));
  mret (mkApiResponse true shown).

(** The [catch (error)] block of [testApi]. *)
Definition recover (p : TestApiParams) (error : Thrown) : M ApiResponse :=
  logError (workerId p) (url (apiConfig p)) (method (apiConfig p)) error;;
  (* Only log errors from workflow execution, not API tests *)
  match workflowId p with
  | Some wf =>
      when (JsString.truthy wf && negb (propUndefined (variables p) "workflow"))
        (store_insert
           (mkRow wf "error"
                  (match error with
                   | ThrownError e => err_message e
                   | ThrownOther _ => "Failed to connect to MindStudio API"
                   end)
                  (FailureDetails
                     (match error with
                      | ThrownError e => err_message e
                      | ThrownOther _ => "Unknown error"
                      end)
                     (match error with
                      | ThrownError e => err_stack e
                      | ThrownOther _ => None
                      end))))
  | None => mret tt
  end;;
  throw error.

Definition testApi (net : Network) (p : TestApiParams) : M ApiResponse :=
  if negb (JsString.truthy (workerId p)) || JsString.eqb (workerId p) "your-worker-id"
  then throw (ApiError (JStr "Worker ID is not configured"))
  else if negb (JsString.truthy (apiAuthToken p))
          || JsString.eqb (apiAuthToken p) "your-auth-token"
  then throw (ApiError (JStr "API authentication token is not configured"))
  else try_catch (attempt net p) (recover p).

(** [handleApiError(error): never] *)
Definition handleApiError {A : Type} (error : Thrown) : M A :=
  match error with
  | ThrownError e =>
      if JsString.includes (err_message e) "401" then
        emit (EvToastError "Authentication failed. Please check your API credentials.");;
        throw (newError "Authentication failed")
      else if JsString.includes (err_message e) "403" then
        emit (EvToastError "You do not have permission to perform this action.");;
        throw (newError "Permission denied")
      else if JsString.includes (err_message e) "404" then
        emit (EvToastError "The requested resource was not found.");;
        throw (newError "Resource not found")
      else if JsString.includes (err_message e) "429" then
        emit (EvToastError "Too many requests. Please try again later.");;
        throw (newError "Rate limit exceeded")
      else if JsString.includes (err_message e) "500" then
        emit (EvToastError "Server error. Please try again later.");;
        throw (newError "Server error")
      else mret tt
  | ThrownOther _ => mret tt
  end;;
  emit (EvToastError "An unexpected error occurred");;
  throw (newError "Unknown error occurred").

End Engine.

(* ===================================================================== *)
(** ** Vocabulary of the specification *)
(* ===================================================================== *)

(** The identity of the request is configured: neither field is empty or
    its placeholder. *)
Definition configured (p : TestApiParams) : Prop :=
  workerId p <> "" /\ workerId p <> "your-worker-id" /\
  apiAuthToken p <> "" /\ apiAuthToken p <> "your-auth-token".

(** The rows a run inserted, in order. *)
Definition inserted (tr : list Event) : list LogRow :=
  omap (fun e => match e with EvInsert row => Some row | _ => None end) tr.

(** The rows written by the conditional audit write (step 5): they are the
    ones whose details are [{ status, response }]. *)
Definition step5_rows (tr : list Event) : list LogRow :=
  List.filter
    (fun row => match details row with ResponseDetails _ _ => true | _ => false end)
    (inserted tr).

(** The rows of workflow [wf] that carry the success marker. *)
Definition success_rows (wf : string) (rows : list LogRow) : list LogRow :=
  List.filter
    (fun row => bool_decide (workflow_id row = wf /\
                             message row = "API request successful"))
    rows.

(** The first truthy value of a list of candidates. *)
Definition firstTruthy (candidates : list JsValue) : option JsValue :=
  List.find truthy candidates.

(** The categories of the error classifier. *)
Inductive Category : Type :=
| Authentication | Permission | NotFound | RateLimit | ServerError | Unknown.

(** The substrings looked for, in priority order. *)
Definition priority : list (string * Category) :=
  [("401", Authentication); ("403", Permission); ("404", NotFound);
   ("429", RateLimit); ("500", ServerError)].

(** First match wins; no match, or not an [Error], is [Unknown]. *)
Definition classify (error : Thrown) : Category :=
  match error with
  | ThrownError e =>
      match List.find (fun entry => JsString.includes (err_message e) entry.1) priority with
      | Some entry => entry.2
      | None => Unknown
      end
  | ThrownOther _ => Unknown
  end.

(** The operator-facing message of a category. *)
Definition userMessage (c : Category) : string :=
  match c with
  | Authentication => "Authentication failed. Please check your API credentials."
  | Permission => "You do not have permission to perform this action."
  | NotFound => "The requested resource was not found."
  | RateLimit => "Too many requests. Please try again later."
  | ServerError => "Server error. Please try again later."
  | Unknown => "An unexpected error occurred"
  end.

(** The message of the error raised for a category. *)
Definition raisedMessage (c : Category) : string :=
  match c with
  | Authentication => "Authentication failed"
  | Permission => "Permission denied"
  | NotFound => "Resource not found"
  | RateLimit => "Rate limit exceeded"
  | ServerError => "Server error"
  | Unknown => "Unknown error occurred"
  end.

(** [code] occurs in [msg] as a substring. *)
Definition occurs (code msg : string) : Prop :=
  exists before after, msg = before +:+ code +:+ after.

(* ===================================================================== *)
(** ** How a call unfolds: summaries *)
(* ===================================================================== *)

(** [a || b] on values. *)
Definition jsOr (a b : JsValue) : JsValue := if truthy a then a else b.

(** The workflow the call audits for: [workflowId] when it is truthy. *)
Definition audited (p : TestApiParams) : option string :=
  match workflowId p with
  | Some wf => if JsString.truthy wf then Some wf else None
  | None => None
  end.

(** The table after the pre-clear. *)
Definition precleared (p : TestApiParams) (st : list LogRow) : list LogRow :=
  match audited p with
  | Some wf => List.filter (fun r => negb (row_matches wf "API request successful" r)) st
  | None => st
  end.

Definition preclear_trace (p : TestApiParams) : list Event :=
  match audited p with
  | Some wf => [EvDelete wf "API request successful"]
  | None => []
  end.

(** The row of the conditional audit write. *)
Definition response_row (wf : string) (r : Response) (d : JsValue) : LogRow :=
  mkRow wf
        (if resp_ok r then "info" else "error")
        (if resp_ok r then "API request successful"
         else "API request failed: " +:+ resp_statusText r)
        (ResponseDetails (resp_status r) d).

(** The row of the failure path. *)
Definition failure_row (wf : string) (error : Thrown) : LogRow :=
  match error with
  | ThrownError e =>
      mkRow wf "error" (err_message e) (FailureDetails (err_message e) (err_stack e))
  | ThrownOther _ =>
      mkRow wf "error" "Failed to connect to MindStudio API"
            (FailureDetails "Unknown error" None)
  end.

(** What [logError] prints for a failure of the call. *)
Definition failure_report (p : TestApiParams) (error : Thrown) : Event :=
  EvConsoleError "Error occurred:"
    (mkPayload
       (match error with
        | ThrownError e => err_message e
        | ThrownOther _ => "An unknown error occurred"
        end)
       (match error with
        | ThrownError e => err_stack e
        | ThrownOther _ => None
        end)
       (workerId p) (url (apiConfig p)) (method (apiConfig p))).

Definition step5 (p : TestApiParams) (r : Response) (d : JsValue) : list LogRow :=
  match audited p with
  | Some wf =>
      if negb (resp_ok r) || propUndefined (variables p) "workflow"
      then [response_row wf r d] else []
  | None => []
  end.

Definition failure_rows (p : TestApiParams) (error : Thrown) : list LogRow :=
  match audited p with
  | Some wf =>
      if propUndefined (variables p) "workflow" then [] else [failure_row wf error]
  | None => []
  end.

(** The value of [data.result || data.responseText || data.response ||
    data.message]. *)
Definition probed (d : JsValue) : JsValue :=
  jsOr (jsOr (jsOr (field d "result") (field d "responseText")) (field d "response"))
       (field d "message").

(** The value of [responseText || data.result || 'No response received']. *)
Definition shown (d : JsValue) : JsValue :=
  jsOr (jsOr (probed d) (field d "result")) (JStr "No response received").

(** The argument of [new ApiError] on a rejected status. *)
Definition rejection_arg (r : Response) (d : JsValue) : JsValue :=
  jsOr (field d "message") (JStr ("API request failed: " +:+ resp_statusText r)).

(** The failure path run after the [try] block threw [error], having
    performed [tr] and left the table [st]. *)
Definition failed (p : TestApiParams) (error : Thrown) (st : list LogRow)
    (tr : list Event) : Outcome ApiResponse :=
  mkOutcome (Throw error) (st ++ failure_rows p error)
            (tr ++ failure_report p error :: map EvInsert (failure_rows p error)).

(* ===================================================================== *)
(** ** Inputs for the concrete runs *)
(* ===================================================================== *)

(** The engine of the concrete runs.  [ApiError] is declared as an
    interface only, so the identifier is unbound when the code runs:
    evaluating [new ApiError(arg)] raises the engine's [ReferenceError]
    before the argument is looked at.  Stacks are left out. *)
Definition sampleApiError (arg : JsValue) : Thrown :=
  ThrownError (mkError "ApiError is not defined" None).

Definition sampleNullRead (k : string) : ErrorObj :=
  mkError ("Cannot read properties of null (reading '" +:+ k +:+ "')") None.

Definition sampleStack (msg : string) : option string := None.

Definition sampleConfig : ApiConfig :=
  mkApiConfig "post" "https://api.example.test/run" "application/json".

(** A request for workflow "w1" without a [workflow] variable (an API test)
    and one with it (a workflow execution). *)
Definition apiTest : TestApiParams :=
  mkParams "worker-1" "secret" sampleConfig ∅ (Some "w1").

Definition workflowRun : TestApiParams :=
  mkParams "worker-1" "secret" sampleConfig {["workflow" := "nightly"]} (Some "w1").

Definition adHoc : TestApiParams :=
  mkParams "worker-1" "secret" sampleConfig ∅ None.

(** A remote end that answers every request the same way. *)
Definition answering (status : Z) (statusText : string) (body : Thrown + JsValue)
    : Network :=
  fun _ _ => inr (mkResponse status statusText body).

Definition unreachable (rejection : Thrown) : Network :=
  fun _ _ => inl rejection.

Definition run := testApi sampleApiError sampleNullRead.

(* ===================================================================== *)
(** ** Strings *)
(* ===================================================================== *)

Lemma truthy_string_false (s : string) : JsString.truthy s = false <-> s = "".
Proof. destruct s; cbn; split; congruence. Qed.

Lemma truthy_string_true (s : string) : JsString.truthy s = true <-> s <> "".
Proof. destruct s; cbn; split; congruence. Qed.

Lemma eqb_string_true (a b : string) : JsString.eqb a b = true <-> a = b.
Proof. apply Stdlib.Strings.String.eqb_eq. Qed.

Lemma eqb_string_false (a b : string) : JsString.eqb a b = false <-> a <> b.
Proof. apply Stdlib.Strings.String.eqb_neq. Qed.

Lemma append_cons (c : Ascii.ascii) (a b : string) :
  String c a +:+ b = String c (a +:+ b).
Proof. reflexivity. Qed.

Lemma startsWith_iff (s p : string) :
  JsString.startsWith s p = true <-> exists rest, s = p +:+ rest.
Proof.
  unfold JsString.startsWith. revert s.
  induction p as [|c p IH]; intros s.
  - destruct s; cbn; split; eauto.
  - destruct s as [|c' s]; cbn.
    + split; [discriminate | intros [rest H]; discriminate].
    + destruct (Ascii.ascii_dec c c') as [->|Hne].
      * rewrite IH. split; intros [rest H]; exists rest;
          rewrite append_cons in *; congruence.
      * split; [discriminate | intros [rest H]; rewrite append_cons in H; congruence].
Qed.

Lemma includes_iff (s p : string) :
  JsString.includes s p = true <-> exists before after, s = before +:+ p +:+ after.
Proof.
  induction s as [|c s IH]; cbn [JsString.includes].
  - rewrite orb_false_r. fold (JsString.startsWith "" p). rewrite startsWith_iff.
    split.
    + intros [rest H]. exists "", rest. exact H.
    + intros [[|b before] [after H]]; [eauto | discriminate].
  - rewrite orb_true_iff, IH. fold (JsString.startsWith (String c s) p).
    rewrite startsWith_iff. split.
    + intros [[rest H] | (before & after & H)].
      * exists "", rest. exact H.
      * exists (String c before), after. rewrite append_cons. congruence.
    + intros ([|b before] & after & H).
      * left. exists after. exact H.
      * right. exists before, after. rewrite append_cons in H. congruence.
Qed.

(* ===================================================================== *)
(** ** How a call unfolds: lemmas *)
(* ===================================================================== *)

Section Unfolding.

Variable ApiError : JsValue -> Thrown.
Variable nullRead : string -> ErrorObj.

Local Abbreviation call := (testApi ApiError nullRead).
Local Abbreviation try_body := (attempt ApiError nullRead).

#[local] Arguments propUndefined : simpl never.
#[local] Arguments requestInit : simpl never.
#[local] Arguments field : simpl never.
#[local] Arguments truthy : simpl never.
#[local] Arguments resp_ok : simpl never.

Ltac run_monad :=
  unfold mbind, M_bind, mret, M_ret, bind, after, ret, throw, emit, when,
    store_delete, store_insert.

Lemma testApi_configured net p :
  configured p -> call net p = try_catch (try_body net p) (recover p).
Proof.
  intros (Hw1 & Hw2 & Ht1 & Ht2). unfold testApi.
  apply truthy_string_true in Hw1, Ht1.
  apply eqb_string_false in Hw2, Ht2.
  rewrite Hw1, Hw2, Ht1, Ht2. reflexivity.
Qed.

Lemma recover_outcome p error st :
  recover p error st =
  mkOutcome (Throw error) (st ++ failure_rows p error)
            (failure_report p error :: map EvInsert (failure_rows p error)).
Proof.
  unfold recover, failure_rows, audited, logError, failure_report. run_monad.
  destruct (workflowId p) as [wf|]; cbn.
  - destruct (JsString.truthy wf); cbn.
    + destruct (propUndefined (variables p) "workflow"); cbn.
      * rewrite app_nil_r. reflexivity.
      * destruct error; reflexivity.
    + rewrite app_nil_r. reflexivity.
  - rewrite app_nil_r. reflexivity.
Qed.

Lemma attempt_rejected net p st error :
  net (url (apiConfig p)) (requestInit p) = inl error ->
  try_body net p st =
  mkOutcome (Throw error) (precleared p st)
            (preclear_trace p ++ [EvFetch (url (apiConfig p)) (requestInit p)]).
Proof.
  intros Hnet.
  unfold attempt, precleared, preclear_trace, audited, fetch. run_monad.
  rewrite Hnet.
  destruct (workflowId p) as [wf|]; cbn; [destruct (JsString.truthy wf)|]; reflexivity.
Qed.

Lemma attempt_undecodable net p st r error :
  net (url (apiConfig p)) (requestInit p) = inr r ->
  resp_json r = inl error ->
  try_body net p st =
  mkOutcome (Throw error) (precleared p st)
            (preclear_trace p ++ [EvFetch (url (apiConfig p)) (requestInit p)]).
Proof.
  intros Hnet Hjson.
  unfold attempt, precleared, preclear_trace, audited, fetch, json. run_monad.
  rewrite Hnet. cbn. rewrite Hjson.
  destruct (workflowId p) as [wf|]; cbn; [destruct (JsString.truthy wf)|]; reflexivity.
Qed.

Lemma attempt_unreadable net p st r d :
  net (url (apiConfig p)) (requestInit p) = inr r ->
  resp_json r = inr d ->
  readable d = false ->
  try_body net p st =
  mkOutcome (Throw (ThrownError (nullRead "result"))) (precleared p st)
            (preclear_trace p ++ [EvFetch (url (apiConfig p)) (requestInit p)]).
Proof.
  intros Hnet Hjson Hread.
  unfold attempt, precleared, preclear_trace, audited, fetch, json, orElse, getProp.
  run_monad. rewrite Hnet. cbn. rewrite Hjson, Hread.
  destruct (workflowId p) as [wf|]; cbn; [destruct (JsString.truthy wf)|]; reflexivity.
Qed.

Lemma attempt_decoded net p st r d :
  net (url (apiConfig p)) (requestInit p) = inr r ->
  resp_json r = inr d ->
  readable d = true ->
  try_body net p st =
  mkOutcome (if resp_ok r then Return (mkApiResponse true (shown d))
             else Throw (ApiError (rejection_arg r d)))
            (precleared p st ++ step5 p r d)
            (preclear_trace p ++
             EvFetch (url (apiConfig p)) (requestInit p) :: map EvInsert (step5 p r d)).
Proof.
  intros Hnet Hjson Hread.
  unfold attempt, precleared, preclear_trace, step5, audited, fetch, json, orElse,
    getProp, shown, probed, rejection_arg, jsOr, response_row.
  run_monad. rewrite Hnet. cbn. rewrite Hjson, Hread.
  destruct (truthy (field d "result")) eqn:E1;
    destruct (truthy (field d "responseText")) eqn:E2;
    destruct (truthy (field d "response")) eqn:E3;
    destruct (truthy (field d "message")) eqn:E4;
    (destruct (workflowId p) as [wf|]; cbn;
     [destruct (JsString.truthy wf); cbn|]);
    destruct (resp_ok r); cbn;
    try destruct (propUndefined (variables p) "workflow"); cbn;
    repeat (progress (cbn; rewrite ?E1, ?E2, ?E3, ?E4));
    rewrite ?app_nil_r; reflexivity.
Qed.

(** Every way a call with a configured identity can go. *)
Lemma call_outcome net p st :
  configured p ->
  call net p st =
  let sent := preclear_trace p ++ [EvFetch (url (apiConfig p)) (requestInit p)] in
  match net (url (apiConfig p)) (requestInit p) with
  | inl rejection => failed p rejection (precleared p st) sent
  | inr r =>
      match resp_json r with
      | inl rejection => failed p rejection (precleared p st) sent
      | inr d =>
          if readable d then
            if resp_ok r then
              mkOutcome (Return (mkApiResponse true (shown d)))
                        (precleared p st ++ step5 p r d)
                        (sent ++ map EvInsert (step5 p r d))
            else
              failed p (ApiError (rejection_arg r d))
                     (precleared p st ++ step5 p r d)
                     (sent ++ map EvInsert (step5 p r d))
          else failed p (ThrownError (nullRead "result")) (precleared p st) sent
      end
  end.
Proof.
  intros Hp. rewrite (testApi_configured _ _ Hp). unfold try_catch, failed.
  cbv zeta.
  destruct (net (url (apiConfig p)) (requestInit p)) as [e|r] eqn:Hnet.
  { rewrite (attempt_rejected _ _ _ _ Hnet), recover_outcome. reflexivity. }
  destruct (resp_json r) as [e|d] eqn:Hjson.
  { rewrite (attempt_undecodable _ _ _ _ _ Hnet Hjson), recover_outcome. reflexivity. }
  destruct (readable d) eqn:Hread.
  - rewrite (attempt_decoded _ _ _ _ _ Hnet Hjson Hread).
    rewrite <- app_assoc. cbn [app].
    destruct (resp_ok r); [reflexivity|].
    rewrite recover_outcome. reflexivity.
  - rewrite (attempt_unreadable _ _ _ _ _ Hnet Hjson Hread), recover_outcome.
    reflexivity.
Qed.

(** A call whose identity is not configured stops before doing anything. *)
Lemma call_unconfigured net p st :
  ~ configured p ->
  exists msg,
    (msg = "Worker ID is not configured" \/
     msg = "API authentication token is not configured") /\
    call net p st = mkOutcome (Throw (ApiError (JStr msg))) st [].
Proof.
  intros Hp. unfold testApi.
  destruct (JsString.truthy (workerId p)) eqn:Hw1; cbn [negb orb];
    [|eexists; split; [left; reflexivity | reflexivity]].
  destruct (JsString.eqb (workerId p) "your-worker-id") eqn:Hw2;
    [eexists; split; [left; reflexivity | reflexivity]|].
  destruct (JsString.truthy (apiAuthToken p)) eqn:Ht1; cbn [negb orb];
    [|eexists; split; [right; reflexivity | reflexivity]].
  destruct (JsString.eqb (apiAuthToken p) "your-auth-token") eqn:Ht2;
    [eexists; split; [right; reflexivity | reflexivity]|].
  exfalso. apply Hp.
  apply truthy_string_true in Hw1, Ht1. apply eqb_string_false in Hw2, Ht2.
  repeat split; assumption.
Qed.

Lemma configured_dec p : {configured p} + {~ configured p}.
Proof. unfold configured. solve_decision. Defined.

End Unfolding.

(* ===================================================================== *)
(** ** Small facts used by the properties *)
(* ===================================================================== *)

Lemma audited_set p wf :
  workflowId p = Some wf -> wf <> "" -> audited p = Some wf.
Proof.
  intros Hwf Hne. unfold audited. rewrite Hwf.
  apply truthy_string_true in Hne. rewrite Hne. reflexivity.
Qed.

Lemma audited_unset p :
  workflowId p = None \/ workflowId p = Some "" -> audited p = None.
Proof. unfold audited. intros [-> | ->]; reflexivity. Qed.

Lemma propUndefined_true (vars : gmap string string) k :
  propUndefined vars k = true <-> vars !! k = None.
Proof. unfold propUndefined. destruct (vars !! k); split; congruence. Qed.

Lemma propUndefined_false (vars : gmap string string) k :
  propUndefined vars k = false <-> vars !! k <> None.
Proof. unfold propUndefined. destruct (vars !! k); split; congruence. Qed.

Lemma readable_true d : d <> JNull -> d <> JUndefined -> readable d = true.
Proof. destruct d; cbn; congruence. Qed.

Lemma inserted_app tr1 tr2 : inserted (tr1 ++ tr2) = inserted tr1 ++ inserted tr2.
Proof. unfold inserted. apply omap_app. Qed.

Lemma inserted_map_EvInsert rows : inserted (map EvInsert rows) = rows.
Proof.
  unfold inserted. induction rows as [|row rows IH]; [reflexivity|].
  cbn. rewrite IH. reflexivity.
Qed.

Lemma inserted_preclear_trace p : inserted (preclear_trace p) = [].
Proof. unfold preclear_trace. destruct (audited p); reflexivity. Qed.

(** The rows a failing run inserted, given those inserted before the
    failure path. *)
Lemma inserted_failed p error st tr :
  inserted (trace (failed p error st tr)) = inserted tr ++ failure_rows p error.
Proof.
  unfold failed. cbn [trace]. rewrite inserted_app. cbn.
  change (omap _ (map EvInsert ?rows)) with (inserted (map EvInsert rows)).
  rewrite inserted_map_EvInsert. reflexivity.
Qed.

Lemma filter_negb_none {A} (f : A -> bool) (l : list A) :
  List.filter f (List.filter (fun x => negb (f x)) l) = [].
Proof.
  induction l as [|x l IH]; [reflexivity|]. cbn.
  destruct (f x) eqn:E; cbn; [|rewrite E]; exact IH.
Qed.

(* ===================================================================== *)
(** ** Properties of [testApi] *)
(* ===================================================================== *)

Section Pipeline.

Variable ApiError : JsValue -> Thrown.
Variable nullRead : string -> ErrorObj.

Local Abbreviation call := (testApi ApiError nullRead).

(** A call that audits for no workflow ([workflowId] absent or empty). *)
Lemma call_without_workflow net p st :
  audited p = None ->
  final (call net p st) = st /\
  Forall (fun e => is_store_access e = false) (trace (call net p st)) /\
  (trace (call net p st) = [] \/
   (exists a, completion (call net p st) = Return a /\
      trace (call net p st) = [EvFetch (url (apiConfig p)) (requestInit p)]) \/
   (exists error, completion (call net p st) = Throw error /\
      trace (call net p st) =
        [EvFetch (url (apiConfig p)) (requestInit p); failure_report p error])).
Proof.
  intros Ha.
  destruct (configured_dec p) as [Hp | Hp].
  - rewrite (call_outcome _ _ _ _ _ Hp). cbv zeta.
    unfold failed, precleared, preclear_trace, step5, failure_rows. rewrite Ha.
    destruct (net _ _) as [e|r]; [|destruct (resp_json r) as [e|d];
      [|destruct (readable d); [destruct (resp_ok r)|]]];
      cbn; rewrite ?app_nil_r;
      (split; [reflexivity|]); (split; [repeat constructor|]); eauto.
  - destruct (call_unconfigured ApiError nullRead net p st Hp) as (msg & _ & ->).
    cbn. auto.
Qed.

(** C9.  With [workflowId] absent the table is never accessed: the run
    leaves it as it was and performs no delete and no insert; what it does
    perform is nothing (precondition failure), the network call alone
    (success), or the network call followed by the error report (failure,
    which is re-raised). *)
Theorem absent_workflow_never_touches_store net p st :
  workflowId p = None ->
  final (testApi ApiError nullRead net p st) = st /\
  Forall (fun e => is_store_access e = false) (trace (testApi ApiError nullRead net p st)) /\
  (trace (testApi ApiError nullRead net p st) = [] \/
   (exists a, completion (testApi ApiError nullRead net p st) = Return a /\
      trace (testApi ApiError nullRead net p st) = [EvFetch (url (apiConfig p)) (requestInit p)]) \/
   (exists error, completion (testApi ApiError nullRead net p st) = Throw error /\
      trace (testApi ApiError nullRead net p st) =
        [EvFetch (url (apiConfig p)) (requestInit p); failure_report p error])).
Proof.
  intros Hwf. apply call_without_workflow, audited_unset. auto.
Qed.

Lemma step5_rows_failure_rows p error :
  List.filter
    (fun row => match details row with ResponseDetails _ _ => true | _ => false end)
    (failure_rows p error) = [].
Proof.
  unfold failure_rows. destruct (audited p); [|reflexivity].
  destruct (propUndefined _ _); [reflexivity|]. destruct error; reflexivity.
Qed.

Lemma step5_rows_step5 p r d :
  List.filter
    (fun row => match details row with ResponseDetails _ _ => true | _ => false end)
    (step5 p r d) = step5 p r d.
Proof.
  unfold step5. destruct (audited p); [|reflexivity].
  destruct (_ || _); reflexivity.
Qed.

(** The rows inserted by a call that decoded a readable body. *)
Lemma inserted_decoded net p st r d :
  configured p ->
  net (url (apiConfig p)) (requestInit p) = inr r ->
  resp_json r = inr d -> readable d = true ->
  inserted (trace (call net p st)) =
  step5 p r d ++
  (if resp_ok r then [] else failure_rows p (ApiError (rejection_arg r d))).
Proof.
  intros Hp Hnet Hjson Hread.
  rewrite (call_outcome _ _ _ _ _ Hp). cbv zeta. rewrite Hnet, Hjson, Hread.
  assert (Hsent : inserted ((preclear_trace p ++
             [EvFetch (url (apiConfig p)) (requestInit p)]) ++
             map EvInsert (step5 p r d)) = step5 p r d).
  { rewrite !inserted_app, inserted_preclear_trace, inserted_map_EvInsert.
    reflexivity. }
  destruct (resp_ok r).
  - cbn [trace]. rewrite Hsent, app_nil_r. reflexivity.
  - rewrite inserted_failed, Hsent. reflexivity.
Qed.

(** C1 (as amended).  For a call that reaches the conditional audit write
    -- the identity is configured, a response arrived, and its body decoded
    to a value other than [null] -- with a non-empty [workflowId]: the
    step-5 row is written exactly when the status is not a success status
    or [variables] has no key [workflow]; the row has level "info" and
    message "API request successful" on a success status, level "error" and
    message "API request failed: " followed by the status text otherwise,
    and details [{ status, response: decoded body }].  With [workflowId]
    absent no step-5 row is written, whatever the run does. *)
Theorem step5_audit_policy :
  (forall net p st wf r d,
     configured p ->
     workflowId p = Some wf -> wf <> "" ->
     net (url (apiConfig p)) (requestInit p) = inr r ->
     resp_json r = inr d -> d <> JNull -> d <> JUndefined ->
     let written := step5_rows (trace (testApi ApiError nullRead net p st)) in
     (resp_ok r = false \/ variables p !! "workflow" = None ->
      written =
        [mkRow wf
               (if resp_ok r then "info" else "error")
               (if resp_ok r then "API request successful"
                else "API request failed: " +:+ resp_statusText r)
               (ResponseDetails (resp_status r) d)]) /\
     (resp_ok r = true -> variables p !! "workflow" <> None -> written = [])) /\
  (forall net p st,
     workflowId p = None -> step5_rows (trace (testApi ApiError nullRead net p st)) = []).
Proof.
  split.
  - intros net p st wf r d Hp Hwf Hne Hnet Hjson Hnull Hundef written.
    subst written. unfold step5_rows.
    rewrite (inserted_decoded _ _ _ _ _ Hp Hnet Hjson (readable_true _ Hnull Hundef)).
    rewrite List.filter_app, step5_rows_step5.
    replace (List.filter _ (if resp_ok r then [] else _)) with (@nil LogRow)
      by (destruct (resp_ok r); [reflexivity | symmetry; apply step5_rows_failure_rows]).
    rewrite app_nil_r. unfold step5, response_row.
    rewrite (audited_set _ _ Hwf Hne). split.
    + intros [Hok | Hvar].
      * rewrite Hok. reflexivity.
      * apply propUndefined_true in Hvar. rewrite Hvar, orb_true_r. reflexivity.
    + intros Hok Hvar. apply propUndefined_false in Hvar. rewrite Hok, Hvar.
      reflexivity.
  - intros net p st Hwf.
    destruct (call_without_workflow net p st (audited_unset p (or_introl Hwf)))
      as (_ & _ & [-> | [(a & _ & ->) | (error & _ & ->)]]); reflexivity.
Qed.

(** How a call that decoded a readable body completes. *)
Lemma completion_decoded net p st r d :
  configured p ->
  net (url (apiConfig p)) (requestInit p) = inr r ->
  resp_json r = inr d -> readable d = true ->
  completion (call net p st) =
  if resp_ok r then Return (mkApiResponse true (shown d))
  else Throw (ApiError (rejection_arg r d)).
Proof.
  intros Hp Hnet Hjson Hread.
  rewrite (call_outcome _ _ _ _ _ Hp). cbv zeta. rewrite Hnet, Hjson, Hread.
  destruct (resp_ok r); reflexivity.
Qed.

(** X24.  The error raised for a rejected status is built from the message
    alone: two non-2xx responses with the same status text and the same
    decoded body raise the same error, whatever their status codes are. *)
Lemma rejected_error_ignores_status net1 net2 p st r1 r2 d :
  configured p ->
  net1 (url (apiConfig p)) (requestInit p) = inr r1 ->
  net2 (url (apiConfig p)) (requestInit p) = inr r2 ->
  resp_json r1 = inr d -> resp_json r2 = inr d -> readable d = true ->
  resp_ok r1 = false -> resp_ok r2 = false ->
  resp_statusText r1 = resp_statusText r2 ->
  completion (call net1 p st) = completion (call net2 p st).
Proof.
  intros Hp Hnet1 Hnet2 Hjson1 Hjson2 Hread Hok1 Hok2 Htext.
  rewrite (completion_decoded _ _ _ _ _ Hp Hnet1 Hjson1 Hread).
  rewrite (completion_decoded _ _ _ _ _ Hp Hnet2 Hjson2 Hread).
  rewrite Hok1, Hok2. unfold rejection_arg. rewrite Htext. reflexivity.
Qed.

(** C2 (as amended).  For a call with a configured identity and a non-empty
    [workflowId] that receives a non-2xx response whose body decodes to a
    value other than [null]: the step-5 row is written at level "error"
    with message "API request failed: " followed by the status text and
    details [{ status, response }]; the call raises; the step-5 row is the
    only row written when [variables] has no key [workflow], and it is
    followed by exactly one more row, the failure-path row of the error
    that is raised, also at level "error", when it has one. *)
Theorem rejected_status_rows_and_error net p st wf r d :
  configured p ->
  workflowId p = Some wf -> wf <> "" ->
  net (url (apiConfig p)) (requestInit p) = inr r ->
  resp_json r = inr d -> d <> JNull -> d <> JUndefined ->
  resp_ok r = false ->
  let o := testApi ApiError nullRead net p st in
  let row :=
    mkRow wf "error" ("API request failed: " +:+ resp_statusText r)
          (ResponseDetails (resp_status r) d) in
  exists raised,
    completion o = Throw raised /\
    (variables p !! "workflow" = None -> inserted (trace o) = [row]) /\
    (variables p !! "workflow" <> None ->
     inserted (trace o) = [row; failure_row wf raised]) /\
    Forall (fun written => level written = "error") (inserted (trace o)).
Proof.
  intros Hp Hwf Hne Hnet Hjson Hnull Hundef Hok o row.
  pose proof (readable_true _ Hnull Hundef) as Hread.
  exists (ApiError (rejection_arg r d)).
  assert (Hins : inserted (trace o) =
            row :: (if propUndefined (variables p) "workflow" then []
                    else [failure_row wf (ApiError (rejection_arg r d))])).
  { subst o. rewrite (inserted_decoded _ _ _ _ _ Hp Hnet Hjson Hread).
    unfold step5, failure_rows, response_row.
    rewrite (audited_set _ _ Hwf Hne), Hok. reflexivity. }
  split; [|split; [|split]].
  - subst o. rewrite (completion_decoded _ _ _ _ _ Hp Hnet Hjson Hread), Hok.
    reflexivity.
  - intros Hvar. apply propUndefined_true in Hvar. rewrite Hins, Hvar. reflexivity.
  - intros Hvar. apply propUndefined_false in Hvar. rewrite Hins, Hvar. reflexivity.
  - rewrite Hins. constructor; [reflexivity|].
    destruct (propUndefined _ _); [constructor|].
    constructor; [|constructor]. unfold failure_row.
    destruct (ApiError _); reflexivity.
Qed.

Lemma shown_firstTruthy d :
  shown d =
  default (JStr "No response received")
    (firstTruthy [field d "result"; field d "responseText";
                  field d "response"; field d "message"]).
Proof.
  unfold shown, probed, jsOr, firstTruthy. cbn [List.find].
  destruct (truthy (field d "result")) eqn:E1; rewrite ?E1;
    [reflexivity|].
  destruct (truthy (field d "responseText")) eqn:E2; rewrite ?E2, ?E1;
    [reflexivity|].
  destruct (truthy (field d "response")) eqn:E3; rewrite ?E3, ?E1;
    [reflexivity|].
  destruct (truthy (field d "message")) eqn:E4; rewrite ?E4, ?E1; reflexivity.
Qed.

(** C3 (as amended).  On the success path the returned response text is the
    first truthy value among the decoded body's [result], [responseText],
    [response] and [message], probed in that order, and "No response
    received" when none of the four is truthy (a field that is absent, or
    present with an empty string, [null], [false] or [0], is passed over). *)
Theorem success_response_is_first_truthy_field net p st r d :
  configured p ->
  net (url (apiConfig p)) (requestInit p) = inr r ->
  resp_json r = inr d -> d <> JNull -> d <> JUndefined ->
  resp_ok r = true ->
  completion (testApi ApiError nullRead net p st) =
  Return (mkApiResponse true
            (default (JStr "No response received")
               (firstTruthy [field d "result"; field d "responseText";
                             field d "response"; field d "message"]))).
Proof.
  intros Hp Hnet Hjson Hnull Hundef Hok.
  rewrite (completion_decoded _ _ _ _ _ Hp Hnet Hjson (readable_true _ Hnull Hundef)).
  rewrite Hok, shown_firstTruthy. reflexivity.
Qed.

(** A failure inside the [try] block is handed to the failure path. *)
Lemma call_after_throw net p st error :
  configured p ->
  completion (attempt ApiError nullRead net p st) = Throw error ->
  call net p st =
  failed p error (final (attempt ApiError nullRead net p st))
         (trace (attempt ApiError nullRead net p st)).
Proof.
  intros Hp Hthrow. rewrite (testApi_configured _ _ _ _ Hp). unfold try_catch.
  destruct (attempt ApiError nullRead net p st) as [c st' tr]. cbn in Hthrow. subst c.
  rewrite recover_outcome. reflexivity.
Qed.

(** The three failures the pipeline names all throw inside the [try]
    block: a rejected [fetch], an undecodable body, a non-2xx status. *)
Lemma named_failures_throw net p st :
  (forall error,
     net (url (apiConfig p)) (requestInit p) = inl error ->
     completion (attempt ApiError nullRead net p st) = Throw error) /\
  (forall r error,
     net (url (apiConfig p)) (requestInit p) = inr r ->
     resp_json r = inl error ->
     completion (attempt ApiError nullRead net p st) = Throw error) /\
  (forall r d,
     net (url (apiConfig p)) (requestInit p) = inr r ->
     resp_json r = inr d -> readable d = true -> resp_ok r = false ->
     completion (attempt ApiError nullRead net p st) = Throw (ApiError (rejection_arg r d))).
Proof.
  split; [|split].
  - intros error Hnet. rewrite (attempt_rejected _ _ _ _ _ _ Hnet). reflexivity.
  - intros r error Hnet Hjson.
    rewrite (attempt_undecodable _ _ _ _ _ _ _ Hnet Hjson). reflexivity.
  - intros r d Hnet Hjson Hread Hok.
    rewrite (attempt_decoded _ _ _ _ _ _ _ Hnet Hjson Hread), Hok. reflexivity.
Qed.

(** C5 (as amended).  Whenever the [try] block of a call with a configured
    identity throws [error] (a rejected [fetch], an undecodable body, the
    error raised for a non-2xx status, ...), the failure is reported to
    [logError] with context [{ workerId, url, method }]; if [workflowId] is
    non-empty and [variables] has a key [workflow], one row is then
    inserted at level "error" whose message is the error's message, or
    "Failed to connect to MindStudio API" when the thrown value is not an
    [Error], and whose details are [{ error, stack }] with the error's
    message and stack, or "Unknown error" and no stack when it is not an
    [Error]; otherwise nothing is inserted; the same [error] is re-raised. *)
Theorem failure_is_reported_audited_and_reraised net p st error :
  configured p ->
  completion (attempt ApiError nullRead net p st) = Throw error ->
  let tried := attempt ApiError nullRead net p st in
  let o := testApi ApiError nullRead net p st in
  let report :=
    EvConsoleError "Error occurred:"
      (mkPayload
         (match error with
          | ThrownError e => err_message e
          | ThrownOther _ => "An unknown error occurred"
          end)
         (match error with
          | ThrownError e => err_stack e
          | ThrownOther _ => None
          end)
         (workerId p) (url (apiConfig p)) (method (apiConfig p))) in
  completion o = Throw error /\
  (forall wf,
     workflowId p = Some wf -> wf <> "" -> variables p !! "workflow" <> None ->
     let row :=
       match error with
       | ThrownError e =>
           mkRow wf "error" (err_message e)
                 (FailureDetails (err_message e) (err_stack e))
       | ThrownOther _ =>
           mkRow wf "error" "Failed to connect to MindStudio API"
                 (FailureDetails "Unknown error" None)
       end in
     trace o = trace tried ++ [report; EvInsert row] /\
     final o = final tried ++ [row]) /\
  (workflowId p = None \/ workflowId p = Some "" \/
   variables p !! "workflow" = None ->
   trace o = trace tried ++ [report] /\ final o = final tried).
Proof.
  intros Hp Hthrow tried o report. subst tried o.
  rewrite (call_after_throw _ _ _ _ Hp Hthrow). unfold failed, failure_rows.
  cbn [completion final trace]. split; [reflexivity|]. split.
  - intros wf Hwf Hne Hvar. apply propUndefined_false in Hvar.
    rewrite (audited_set _ _ Hwf Hne), Hvar. split; reflexivity.
  - intros [Hwf | [Hwf | Hvar]].
    + rewrite (audited_unset p (or_introl Hwf)), app_nil_r. split; reflexivity.
    + rewrite (audited_unset p (or_intror Hwf)), app_nil_r. split; reflexivity.
    + apply propUndefined_true in Hvar. rewrite Hvar.
      destruct (audited p); rewrite app_nil_r; split; reflexivity.
Qed.

(** A call that returns normally got a 2xx response with a readable body. *)
Lemma call_returns net p st a :
  completion (call net p st) = Return a ->
  exists r d,
    configured p /\
    net (url (apiConfig p)) (requestInit p) = inr r /\
    resp_json r = inr d /\ readable d = true /\ resp_ok r = true /\
    final (call net p st) = precleared p st ++ step5 p r d.
Proof.
  destruct (configured_dec p) as [Hp | Hp].
  - rewrite (call_outcome _ _ _ _ _ Hp). cbv zeta.
    destruct (net _ _) as [e|r] eqn:Hnet; [discriminate|].
    destruct (resp_json r) as [e|d] eqn:Hjson; [discriminate|].
    destruct (readable d) eqn:Hread; [|discriminate].
    destruct (resp_ok r) eqn:Hok; [|discriminate].
    intros _. exists r, d. auto 10.
  - destruct (call_unconfigured ApiError nullRead net p st Hp) as (msg & _ & ->).
    discriminate.
Qed.

Lemma row_matches_decide wf msg row :
  row_matches wf msg row = bool_decide (workflow_id row = wf /\ message row = msg).
Proof.
  unfold row_matches, JsString.eqb.
  destruct (Stdlib.Strings.String.eqb_spec (workflow_id row) wf) as [H1|H1];
    destruct (Stdlib.Strings.String.eqb_spec (message row) msg) as [H2|H2]; cbn;
    symmetry; (apply bool_decide_eq_true || apply bool_decide_eq_false); tauto.
Qed.

Lemma success_rows_app wf rows1 rows2 :
  success_rows wf (rows1 ++ rows2) = success_rows wf rows1 ++ success_rows wf rows2.
Proof. apply List.filter_app. Qed.

Lemma success_rows_precleared p st wf :
  audited p = Some wf -> success_rows wf (precleared p st) = [].
Proof.
  intros Ha. unfold success_rows, precleared. rewrite Ha.
  erewrite (List.filter_ext (fun row => bool_decide _)).
  - apply filter_negb_none.
  - intros row. cbv beta. symmetry. apply row_matches_decide.
Qed.

(** C6.  Two calls in sequence for the same non-empty [workflowId], both
    returning normally (each got a 2xx response) and neither [variables]
    having a key [workflow], leave at most one row of that workflow with
    message "API request successful": the second call's pre-clear deletes
    every such row before its own is inserted. *)
Theorem retest_leaves_at_most_one_success_row net1 net2 p1 p2 st wf a1 a2 :
  workflowId p1 = Some wf -> workflowId p2 = Some wf -> wf <> "" ->
  variables p1 !! "workflow" = None -> variables p2 !! "workflow" = None ->
  let first := testApi ApiError nullRead net1 p1 st in
  let second := testApi ApiError nullRead net2 p2 (final first) in
  completion first = Return a1 ->
  completion second = Return a2 ->
  (length (success_rows wf (final second)) <= 1)%nat.
Proof.
  intros _ Hwf Hne _ Hvar first second _ Hret. subst second.
  destruct (call_returns _ _ _ _ Hret) as (r & d & _ & _ & _ & _ & Hok & ->).
  rewrite success_rows_app.
  rewrite (success_rows_precleared _ _ _ (audited_set _ _ Hwf Hne)).
  unfold step5, success_rows. rewrite (audited_set _ _ Hwf Hne).
  destruct (_ || _); cbn [app List.filter]; [|cbn; lia].
  destruct (bool_decide _); cbn; lia.
Qed.

(** X23.  After two calls in sequence that both return normally, the
    second for a non-empty [workflowId] and without a [workflow] variable,
    the table holds exactly one row of that workflow with message "API
    request successful": the one the second call wrote, at level "info",
    with the status and decoded body of the second answer. *)
Lemma retest_leaves_the_latest_success_row net1 net2 p1 p2 st wf a1 a2 :
  workflowId p2 = Some wf -> wf <> "" ->
  variables p2 !! "workflow" = None ->
  completion (call net1 p1 st) = Return a1 ->
  completion (call net2 p2 (final (call net1 p1 st))) = Return a2 ->
  exists r d,
    net2 (url (apiConfig p2)) (requestInit p2) = inr r /\ resp_json r = inr d /\
    success_rows wf (final (call net2 p2 (final (call net1 p1 st)))) =
    [mkRow wf "info" "API request successful" (ResponseDetails (resp_status r) d)].
Proof.
  intros Hwf Hne Hvar _ Hret.
  destruct (call_returns _ _ _ _ Hret) as (r & d & _ & Hnet & Hjson & _ & Hok & ->).
  exists r, d. split; [exact Hnet|]. split; [exact Hjson|].
  rewrite success_rows_app.
  rewrite (success_rows_precleared _ _ _ (audited_set _ _ Hwf Hne)).
  unfold step5, response_row, success_rows. rewrite (audited_set _ _ Hwf Hne), Hok.
  apply propUndefined_true in Hvar. rewrite Hvar. cbn [negb orb app List.filter].
  rewrite bool_decide_eq_true_2; [reflexivity|]. split; reflexivity.
Qed.

(** The request that is sent carries the [Authorization] header computed
    by [authorization]. *)
Lemma sent_request_header net p st :
  configured p ->
  exists init,
    In (EvFetch (url (apiConfig p)) init) (trace (call net p st)) /\
    init_authorization init = authorization (apiAuthToken p).
Proof.
  intros Hp. exists (requestInit p). split; [|reflexivity].
  rewrite (call_outcome _ _ _ _ _ Hp). cbv zeta. unfold failed.
  destruct (net _ _) as [e|r]; [|destruct (resp_json r) as [e|d];
    [|destruct (readable d); [destruct (resp_ok r)|]]];
    cbn [trace]; rewrite !in_app_iff; cbn; tauto.
Qed.

(** No request other than that one is ever sent. *)
Lemma sent_requests net p st target init :
  In (EvFetch target init) (trace (call net p st)) ->
  target = url (apiConfig p) /\ init = requestInit p.
Proof.
  assert (Hpre : ~ In (EvFetch target init) (preclear_trace p)).
  { unfold preclear_trace. destruct (audited p); cbn; intuition discriminate. }
  assert (Hrows : forall rows, ~ In (EvFetch target init) (map EvInsert rows)).
  { intros rows Hin. apply in_map_iff in Hin as (row & Heq & _). discriminate. }
  destruct (configured_dec p) as [Hp | Hp].
  - rewrite (call_outcome _ _ _ _ _ Hp). cbv zeta. unfold failed, failure_report.
    destruct (net _ _) as [e|r]; [|destruct (resp_json r) as [e|d];
      [|destruct (readable d); [destruct (resp_ok r)|]]];
      cbn [trace]; rewrite ?in_app_iff; cbn [In]; rewrite ?in_app_iff; cbn [In];
      intros H; repeat destruct H as [H | H];
      try (injection H as <- <-; split; reflexivity);
      try discriminate; try (destruct (Hpre H)); try (destruct (Hrows _ H));
      try destruct H.
  - destruct (call_unconfigured ApiError nullRead net p st Hp) as (msg & _ & ->).
    intros [].
Qed.

End Pipeline.

(* ===================================================================== *)
(** ** The [Authorization] header *)
(* ===================================================================== *)

Lemma authorization_prefixed rest :
  authorization ("Bearer " +:+ rest) = "Bearer " +:+ rest.
Proof.
  unfold authorization.
  assert (H : JsString.startsWith ("Bearer " +:+ rest) "Bearer " = true)
    by (apply startsWith_iff; eauto).
  rewrite H. reflexivity.
Qed.

(** C7.  The request a call sends carries, as its [Authorization] header,
    the token itself when the token starts with "Bearer ", and "Bearer "
    followed by the token otherwise; so computing the header is
    idempotent, "abc" gives "Bearer abc" and "Bearer abc" is left
    unchanged. *)
Theorem authorization_header_prefixing :
  (forall ApiError nullRead net p st,
     configured p ->
     (exists init,
        In (EvFetch (url (apiConfig p)) init)
           (trace (testApi ApiError nullRead net p st)) /\
        init_authorization init = authorization (apiAuthToken p)) /\
     (forall target init,
        In (EvFetch target init) (trace (testApi ApiError nullRead net p st)) ->
        init_authorization init = authorization (apiAuthToken p))) /\
  (forall rest, authorization ("Bearer " +:+ rest) = "Bearer " +:+ rest) /\
  (forall token,
     (forall rest, token <> "Bearer " +:+ rest) ->
     authorization token = "Bearer " +:+ token) /\
  (forall token, authorization (authorization token) = authorization token) /\
  authorization "abc" = "Bearer abc" /\
  authorization "Bearer abc" = "Bearer abc".
Proof.
  split.
  { intros ApiError nullRead net p st Hp. split.
    - exact (sent_request_header ApiError nullRead net p st Hp).
    - intros target init Hin.
      destruct (sent_requests ApiError nullRead net p st target init Hin) as [_ ->].
      reflexivity. }
  split; [exact authorization_prefixed|]. split; [|split; [|split; reflexivity]].
  - intros token Hno. unfold authorization.
    destruct (JsString.startsWith token "Bearer ") eqn:E; [|reflexivity].
    apply startsWith_iff in E as [rest ->]. destruct (Hno rest eq_refl).
  - intros token.
    destruct (JsString.startsWith token "Bearer ") eqn:E.
    + assert (H : authorization token = token)
        by (unfold authorization; rewrite E; reflexivity).
      rewrite !H. reflexivity.
    + assert (H : authorization token = "Bearer " +:+ token)
        by (unfold authorization; rewrite E; reflexivity).
      rewrite H. apply authorization_prefixed.
Qed.

(* ===================================================================== *)
(** ** Properties of [handleApiError] *)
(* ===================================================================== *)

Lemma includes_false (s code : string) :
  JsString.includes s code = false <-> ~ occurs code s.
Proof.
  unfold occurs. rewrite <- includes_iff.
  destruct (JsString.includes s code); split; congruence.
Qed.

Section Classifier.

Variable captureStack : string -> option string.

Local Abbreviation classifier A := (@handleApiError captureStack A).

#[local] Arguments JsString.includes : simpl never.

Ltac run_classifier :=
  unfold handleApiError, mbind, M_bind, mret, M_ret, bind, after, ret, throw, emit.

(** The cascade of tests computes the table lookup. *)
Lemma handleApiError_outcome (A : Type) (error : Thrown) (st : list LogRow) :
  classifier A error st =
  mkOutcome (Throw (newError captureStack (raisedMessage (classify error)))) st
            [EvToastError (userMessage (classify error))].
Proof.
  run_classifier. destruct error as [e | v]; [|reflexivity].
  unfold classify, priority. cbn [List.find fst snd].
  destruct (JsString.includes (err_message e) "401"); [reflexivity|].
  destruct (JsString.includes (err_message e) "403"); [reflexivity|].
  destruct (JsString.includes (err_message e) "404"); [reflexivity|].
  destruct (JsString.includes (err_message e) "429"); [reflexivity|].
  destruct (JsString.includes (err_message e) "500"); reflexivity.
Qed.

(** What the table lookup means, substring by substring. *)
Lemma classify_priority (e : ErrorObj) :
  (occurs "401" (err_message e) -> classify (ThrownError e) = Authentication) /\
  (~ occurs "401" (err_message e) -> occurs "403" (err_message e) ->
   classify (ThrownError e) = Permission) /\
  (~ occurs "401" (err_message e) -> ~ occurs "403" (err_message e) ->
   occurs "404" (err_message e) -> classify (ThrownError e) = NotFound) /\
  (~ occurs "401" (err_message e) -> ~ occurs "403" (err_message e) ->
   ~ occurs "404" (err_message e) -> occurs "429" (err_message e) ->
   classify (ThrownError e) = RateLimit) /\
  (~ occurs "401" (err_message e) -> ~ occurs "403" (err_message e) ->
   ~ occurs "404" (err_message e) -> ~ occurs "429" (err_message e) ->
   occurs "500" (err_message e) -> classify (ThrownError e) = ServerError) /\
  (~ occurs "401" (err_message e) -> ~ occurs "403" (err_message e) ->
   ~ occurs "404" (err_message e) -> ~ occurs "429" (err_message e) ->
   ~ occurs "500" (err_message e) -> classify (ThrownError e) = Unknown).
Proof.
  unfold classify, priority. cbn [List.find fst snd].
  repeat split; intros;
    repeat match goal with
      | H : occurs _ _ |- _ => apply includes_iff in H; rewrite H
      | H : ~ occurs _ _ |- _ => apply includes_false in H; rewrite H
      end; reflexivity.
Qed.

(** C8.  [handleApiError] classifies by substrings of the error's message,
    checked in the order "401" (Authentication), "403" (Permission), "404"
    (NotFound), "429" (RateLimit), "500" (ServerError), first match wins;
    any other input, and any value that is not an [Error], is Unknown.  The
    category fixes the message shown to the operator (Authentication:
    "Authentication failed. Please check your API credentials.") and the
    message of the error raised. *)
Theorem classifier_follows_priority_table :
  (forall (A : Type) error st,
     handleApiError captureStack (A := A) error st =
     mkOutcome (Throw (newError captureStack (raisedMessage (classify error)))) st
               [EvToastError (userMessage (classify error))]) /\
  (forall e,
     let msg := err_message e in
     let category := classify (ThrownError e) in
     (occurs "401" msg -> category = Authentication) /\
     (~ occurs "401" msg -> occurs "403" msg -> category = Permission) /\
     (~ occurs "401" msg -> ~ occurs "403" msg -> occurs "404" msg ->
      category = NotFound) /\
     (~ occurs "401" msg -> ~ occurs "403" msg -> ~ occurs "404" msg ->
      occurs "429" msg -> category = RateLimit) /\
     (~ occurs "401" msg -> ~ occurs "403" msg -> ~ occurs "404" msg ->
      ~ occurs "429" msg -> occurs "500" msg -> category = ServerError) /\
     (~ occurs "401" msg -> ~ occurs "403" msg -> ~ occurs "404" msg ->
      ~ occurs "429" msg -> ~ occurs "500" msg -> category = Unknown)) /\
  (forall v, classify (ThrownOther v) = Unknown) /\
  userMessage Authentication =
    "Authentication failed. Please check your API credentials.".
Proof.
  split; [exact handleApiError_outcome|].
  split; [exact classify_priority|].
  split; reflexivity.
Qed.

(** C10.  [handleApiError] never returns normally: whatever it is given,
    [Error] or not, it shows the message of the input's category and then
    raises a newly built [Error] carrying that category's message:
    "Authentication failed" when "401" occurs in the error's message,
    "Permission denied" for "403", "Resource not found" for "404", "Rate
    limit exceeded" for "429", "Server error" for "500" (the first of these
    that occurs decides), and "Unknown error occurred" when none occurs or
    the input is not an [Error].  Nothing of the original error is kept
    beyond its category, and the table is not touched. *)
Theorem classifier_always_raises_fresh_error (A : Type) error st :
  handleApiError captureStack (A := A) error st =
    mkOutcome
      (Throw (ThrownError (mkError (raisedMessage (classify error))
                                   (captureStack (raisedMessage (classify error))))))
      st [EvToastError (userMessage (classify error))] /\
  (forall e, error = ThrownError e ->
     let msg := err_message e in
     (occurs "401" msg -> raisedMessage (classify error) = "Authentication failed") /\
     (~ occurs "401" msg -> occurs "403" msg ->
      raisedMessage (classify error) = "Permission denied") /\
     (~ occurs "401" msg -> ~ occurs "403" msg -> occurs "404" msg ->
      raisedMessage (classify error) = "Resource not found") /\
     (~ occurs "401" msg -> ~ occurs "403" msg -> ~ occurs "404" msg ->
      occurs "429" msg -> raisedMessage (classify error) = "Rate limit exceeded") /\
     (~ occurs "401" msg -> ~ occurs "403" msg -> ~ occurs "404" msg ->
      ~ occurs "429" msg -> occurs "500" msg ->
      raisedMessage (classify error) = "Server error") /\
     (~ occurs "401" msg -> ~ occurs "403" msg -> ~ occurs "404" msg ->
      ~ occurs "429" msg -> ~ occurs "500" msg ->
      raisedMessage (classify error) = "Unknown error occurred")) /\
  (instanceofError error = false ->
   raisedMessage (classify error) = "Unknown error occurred") /\
  (exists text raised,
     handleApiError captureStack (A := A) error st =
     mkOutcome (Throw (ThrownError (mkError raised (captureStack raised)))) st
               [EvToastError text] /\
     In raised ["Authentication failed"; "Permission denied"; "Resource not found";
                "Rate limit exceeded"; "Server error"; "Unknown error occurred"] /\
     ((forall e, error = ThrownError e ->
         forall code, In code ["401"; "403"; "404"; "429"; "500"] ->
                      ~ occurs code (err_message e)) ->
      raised = "Unknown error occurred")) /\
  (forall a, completion (handleApiError captureStack (A := A) error st) <> Return a) /\
  (forall error', classify error' = classify error ->
                  handleApiError captureStack (A := A) error' st =
                  handleApiError captureStack (A := A) error st).
Proof.
  split; [apply handleApiError_outcome|].
  split.
  { intros e -> msg. subst msg.
    destruct (classify_priority e) as (H1 & H2 & H3 & H4 & H5 & H6).
    repeat split; intros;
      [rewrite H1 | rewrite H2 | rewrite H3 | rewrite H4 | rewrite H5 | rewrite H6];
      auto. }
  split; [destruct error; [discriminate | reflexivity]|].
  split; [|split].
  - exists (userMessage (classify error)), (raisedMessage (classify error)).
    split; [apply handleApiError_outcome|]. split.
    + destruct (classify error); cbn; tauto.
    + intros Hnone. destruct error as [e | v]; [|reflexivity].
      specialize (Hnone e eq_refl).
      destruct (classify_priority e) as (_ & _ & _ & _ & _ & Hunknown).
      cbn [raisedMessage]. rewrite Hunknown; [reflexivity|..];
        apply Hnone; cbn; tauto.
  - intros a. rewrite handleApiError_outcome. discriminate.
  - intros error' Hsame. rewrite !handleApiError_outcome, Hsame. reflexivity.
Qed.

End Classifier.

(* ===================================================================== *)
(** ** Concrete runs *)
(* ===================================================================== *)

(** The three bodies of the specification's example. *)
Example result_field_shown :
  completion (run (answering 200 "OK" (inr (JObj [("result", JStr "ok")]))) adHoc [])
  = Return (mkApiResponse true (JStr "ok")).
Proof. reflexivity. Qed.

Example responseText_field_shown :
  completion (run (answering 200 "OK" (inr (JObj [("responseText", JStr "ok2")]))) adHoc [])
  = Return (mkApiResponse true (JStr "ok2")).
Proof. reflexivity. Qed.

Example empty_body_fallback :
  completion (run (answering 200 "OK" (inr (JObj []))) adHoc [])
  = Return (mkApiResponse true (JStr "No response received")).
Proof. reflexivity. Qed.

(** A successful workflow execution writes no row; a successful API test
    writes one row at level "info". *)
Example successful_workflow_run_not_logged :
  inserted (trace (run (answering 200 "OK" (inr (JObj [("result", JStr "ok")])))
                       workflowRun [])) = [].
Proof. vm_compute. reflexivity. Qed.

Example successful_api_test_logged :
  inserted (trace (run (answering 200 "OK" (inr (JObj [("result", JStr "ok")])))
                       apiTest []))
  = [mkRow "w1" "info" "API request successful"
           (ResponseDetails 200 (JObj [("result", JStr "ok")]))].
Proof. vm_compute. reflexivity. Qed.

(** The first matching substring decides, whatever else the message holds. *)
Example earlier_code_wins :
  classify (ThrownError (mkError "HTTP 404 while retrying after 401" None))
  = Authentication.
Proof. reflexivity. Qed.

Example unrelated_number_matches :
  classify (ThrownError (mkError "processed 14040 records" None)) = NotFound.
Proof. reflexivity. Qed.

(** *** Where the claims as written fail *)

(** C1, as written, fails: a 502 whose body is not JSON is a non-success
    status for a call with [workflowId] set and no [workflow] variable, yet
    no row is written (decoding fails before step 5 is reached). *)
Lemma undecodable_error_response_writes_no_row :
  let r := mkResponse 502 "Bad Gateway"
             (inl (ThrownError (mkError "Unexpected token < in JSON" None))) in
  let o := run (fun _ _ => inr r) apiTest [] in
  workflowId apiTest = Some "w1" /\
  resp_ok r = false /\
  variables apiTest !! "workflow" = None /\
  step5_rows (trace o) = [] /\
  inserted (trace o) = [].
Proof. vm_compute. repeat split; reflexivity. Qed.

(** C2, as written, fails: a workflow execution (the [workflow] variable is
    there) that receives a 500 gets two rows at level "error", the step-5
    row and the failure-path row of the error that was raised. *)
Lemma rejected_workflow_run_writes_two_error_rows :
  let body := JObj [("message", JStr "boom")] in
  let r := mkResponse 500 "Internal Server Error" (inr body) in
  let o := run (fun _ _ => inr r) workflowRun [] in
  workflowId workflowRun = Some "w1" /\
  resp_ok r = false /\
  inserted (trace o) =
    [mkRow "w1" "error" "API request failed: Internal Server Error"
           (ResponseDetails 500 body);
     mkRow "w1" "error" "ApiError is not defined"
           (FailureDetails "ApiError is not defined" None)] /\
  length (List.filter (fun row => JsString.eqb (level row) "error")
                      (inserted (trace o))) <> 1%nat.
Proof. vm_compute. repeat split; try reflexivity. discriminate. Qed.

(** C3, as written, fails: a [result] field that is present but empty does
    not win; the next truthy field does, and with no other field the
    fallback is returned. *)
Lemma empty_result_field_is_passed_over :
  let body1 := [("result", JStr ""); ("responseText", JStr "ok2")] in
  let body2 := [("result", JStr "")] in
  assoc "result" body1 = Some (JStr "") /\
  completion (run (answering 200 "OK" (inr (JObj body1))) adHoc [])
    = Return (mkApiResponse true (JStr "ok2")) /\
  assoc "result" body2 = Some (JStr "") /\
  completion (run (answering 200 "OK" (inr (JObj body2))) adHoc [])
    = Return (mkApiResponse true (JStr "No response received")).
Proof. vm_compute. repeat split; reflexivity. Qed.

(** C5, as written, fails: when what was thrown is not an [Error], the row's
    message is "Failed to connect to MindStudio API", not "Failed to connect
    to the remote worker API", and its details carry "Unknown error". *)
Lemma non_error_failure_row :
  let o := run (unreachable (ThrownOther (JStr "offline"))) workflowRun [] in
  completion o = Throw (ThrownOther (JStr "offline")) /\
  inserted (trace o) =
    [mkRow "w1" "error" "Failed to connect to MindStudio API"
           (FailureDetails "Unknown error" None)] /\
  map message (inserted (trace o)) <> ["Failed to connect to the remote worker API"].
Proof. vm_compute. repeat split; try reflexivity. discriminate. Qed.

(** *** The properties at concrete inputs *)

(** C4 (code defect).  When [workerId] or [apiAuthToken] is empty or
    equals its placeholder, the call stops at the guard before any network
    call and any access to the table, as the precondition asks -- but what
    it raises is not the precondition failure the guard names ("Worker ID
    is not configured", "API authentication token is not configured"):
    [ApiError] is only an interface, so [new ApiError(...)] raises the
    [ReferenceError] "ApiError is not defined". *)
Theorem unconfigured_identity_raises_reference_error net p st :
  workerId p = "" \/ workerId p = "your-worker-id" \/
  apiAuthToken p = "" \/ apiAuthToken p = "your-auth-token" ->
  let o := testApi sampleApiError sampleNullRead net p st in
  completion o = Throw (ThrownError (mkError "ApiError is not defined" None)) /\
  (forall stack,
     completion o <> Throw (ThrownError (mkError "Worker ID is not configured" stack)) /\
     completion o <>
       Throw (ThrownError (mkError "API authentication token is not configured" stack))) /\
  trace o = [] /\
  final o = st.
Proof.
  intros H o. subst o.
  destruct (call_unconfigured sampleApiError sampleNullRead net p st)
    as (msg & _ & ->).
  - unfold configured. tauto.
  - cbn. repeat split; discriminate.
Qed.

Lemma unconfigured_identity_reference_error_witness :
  let p := mkParams "" "secret" sampleConfig ∅ (Some "w1") in
  let o := run (answering 200 "OK" (inr (JObj []))) p [] in
  (workerId p = "" \/ workerId p = "your-worker-id" \/
   apiAuthToken p = "" \/ apiAuthToken p = "your-auth-token") /\
  completion o = Throw (ThrownError (mkError "ApiError is not defined" None)) /\
  trace o = [] /\ final o = [].
Proof.
  intros p o.
  assert (H : workerId p = "" \/ workerId p = "your-worker-id" \/
              apiAuthToken p = "" \/ apiAuthToken p = "your-auth-token")
    by (left; reflexivity).
  split; [exact H|].
  destruct (unconfigured_identity_raises_reference_error
              (answering 200 "OK" (inr (JObj []))) p [] H)
    as (Hraised & _ & Htrace & Hfinal).
  split; [exact Hraised|]. split; [exact Htrace | exact Hfinal].
Defined.

Lemma absent_workflow_witness :
  workflowId adHoc = None /\
  final (run (answering 200 "OK" (inr (JObj [("result", JStr "ok")]))) adHoc []) = [] /\
  Forall (fun e => is_store_access e = false)
         (trace (run (answering 200 "OK" (inr (JObj [("result", JStr "ok")]))) adHoc [])).
Proof.
  split; [reflexivity|].
  destruct (absent_workflow_never_touches_store
              sampleApiError sampleNullRead
              (answering 200 "OK" (inr (JObj [("result", JStr "ok")]))) adHoc []
              eq_refl) as (Hfinal & Hquiet & _).
  split; [exact Hfinal | exact Hquiet].
Defined.

Lemma step5_audit_policy_witness :
  let body := JObj [("result", JStr "ok")] in
  configured apiTest /\
  step5_rows (trace (run (answering 200 "OK" (inr body)) apiTest [])) =
  [mkRow "w1" "info" "API request successful" (ResponseDetails 200 body)].
Proof.
  intros body.
  assert (Hp : configured apiTest) by (repeat split; discriminate).
  split; [exact Hp|].
  apply (proj1 (step5_audit_policy sampleApiError sampleNullRead)
           (answering 200 "OK" (inr body)) apiTest [] "w1"
           (mkResponse 200 "OK" (inr body)) body Hp);
    try reflexivity; try discriminate.
  right. reflexivity.
Defined.

Lemma rejected_status_witness :
  let body := JObj [("message", JStr "quota exceeded")] in
  let o := run (answering 429 "Too Many Requests" (inr body)) apiTest [] in
  configured apiTest /\
  (exists raised, completion o = Throw raised) /\
  inserted (trace o) =
    [mkRow "w1" "error" "API request failed: Too Many Requests"
           (ResponseDetails 429 body)].
Proof.
  intros body o.
  assert (Hp : configured apiTest) by (repeat split; discriminate).
  split; [exact Hp|].
  destruct (rejected_status_rows_and_error sampleApiError sampleNullRead
              (answering 429 "Too Many Requests" (inr body)) apiTest [] "w1"
              (mkResponse 429 "Too Many Requests" (inr body)) body Hp
              eq_refl ltac:(discriminate) eq_refl eq_refl
              ltac:(discriminate) ltac:(discriminate) eq_refl)
    as (raised & Hraised & Hrow & _ & _).
  split; [exists raised; exact Hraised | exact (Hrow eq_refl)].
Defined.

Lemma success_response_witness :
  let body := JObj [("response", JStr "done"); ("message", JStr "ignored")] in
  configured apiTest /\
  completion (run (answering 201 "Created" (inr body)) apiTest []) =
  Return (mkApiResponse true (JStr "done")).
Proof.
  intros body.
  assert (Hp : configured apiTest) by (repeat split; discriminate).
  split; [exact Hp|].
  exact (success_response_is_first_truthy_field sampleApiError sampleNullRead
           (answering 201 "Created" (inr body)) apiTest []
           (mkResponse 201 "Created" (inr body)) body Hp
           eq_refl eq_refl ltac:(discriminate) ltac:(discriminate) eq_refl).
Defined.

Lemma failure_path_witness :
  let error := ThrownError (mkError "Failed to fetch" (Some "TypeError: Failed to fetch")) in
  let o := run (unreachable error) workflowRun [] in
  configured workflowRun /\
  completion (attempt sampleApiError sampleNullRead (unreachable error) workflowRun [])
    = Throw error /\
  completion o = Throw error /\
  final o = [mkRow "w1" "error" "Failed to fetch"
                   (FailureDetails "Failed to fetch" (Some "TypeError: Failed to fetch"))].
Proof.
  intros error o.
  assert (Hp : configured workflowRun) by (repeat split; discriminate).
  split; [exact Hp|]. split; [reflexivity|].
  destruct (failure_is_reported_audited_and_reraised sampleApiError sampleNullRead
              (unreachable error) workflowRun [] error Hp eq_refl)
    as (Hraised & Hrow & _).
  split; [exact Hraised|].
  exact (proj2 (Hrow "w1" eq_refl ltac:(discriminate) ltac:(discriminate))).
Defined.

Lemma retest_witness :
  let net := answering 200 "OK" (inr (JObj [("result", JStr "ok")])) in
  let stale := mkRow "w1" "info" "API request successful" (ResponseDetails 200 JNull) in
  workflowId apiTest = Some "w1" /\
  variables apiTest !! "workflow" = None /\
  (length (success_rows "w1"
     (final (run net apiTest (final (run net apiTest [stale; stale]))))) <= 1)%nat.
Proof.
  intros net stale. split; [reflexivity|]. split; [reflexivity|].
  exact (retest_leaves_at_most_one_success_row sampleApiError sampleNullRead
           net net apiTest apiTest [stale; stale] "w1"
           (mkApiResponse true (JStr "ok")) (mkApiResponse true (JStr "ok"))
           eq_refl eq_refl ltac:(discriminate) eq_refl eq_refl eq_refl eq_refl).
Defined.

Lemma authorization_witness :
  let net := answering 200 "OK" (inr (JObj [("result", JStr "ok")])) in
  configured apiTest /\
  (exists init,
     In (EvFetch "https://api.example.test/run" init) (trace (run net apiTest [])) /\
     init_authorization init = "Bearer secret") /\
  (forall rest, "abc" <> "Bearer " +:+ rest) /\
  authorization "abc" = "Bearer abc".
Proof.
  intros net.
  assert (Hp : configured apiTest) by (repeat split; discriminate).
  assert (H : forall rest, "abc" <> "Bearer " +:+ rest)
    by (intros rest Heq; rewrite append_cons in Heq; discriminate Heq).
  split; [exact Hp|]. split.
  - exact (proj1 (proj1 authorization_header_prefixing
                    sampleApiError sampleNullRead net apiTest [] Hp)).
  - split; [exact H|].
    exact (proj1 (proj2 (proj2 authorization_header_prefixing)) "abc" H).
Defined.

Lemma classifier_witness :
  let e := mkError "HTTP 403 Forbidden" None in
  ~ occurs "401" (err_message e) /\
  occurs "403" (err_message e) /\
  classify (ThrownError e) = Permission.
Proof.
  intros e.
  assert (H401 : ~ occurs "401" (err_message e))
    by (apply includes_false; reflexivity).
  assert (H403 : occurs "403" (err_message e))
    by (exists "HTTP ", " Forbidden"; reflexivity).
  split; [exact H401|]. split; [exact H403|].
  exact (proj1 (proj2 (proj1 (proj2 (classifier_follows_priority_table sampleStack)) e))
           H401 H403).
Defined.

(* ===================================================================== *)
(** * Further properties of [testApi] *)
(* ===================================================================== *)

(** [console.error] calls among the effects. *)
Definition is_console_error (e : Event) : bool :=
  match e with
  | EvConsoleError _ _ => true
  | _ => false
  end.

(** The rows the pre-clear of a call for [p] leaves alone. *)
Definition survives_preclear (p : TestApiParams) (row : LogRow) : bool :=
  match workflowId p with
  | Some wf =>
      negb (JsString.truthy wf &&
            JsString.eqb (workflow_id row) wf &&
            JsString.eqb (message row) "API request successful")
  | None => true
  end.

Lemma precleared_survivors p st :
  precleared p st = List.filter (survives_preclear p) st.
Proof.
  unfold precleared, audited, survives_preclear.
  destruct (workflowId p) as [wf|].
  - destruct (JsString.truthy wf); cbn [andb negb].
    + reflexivity.
    + induction st as [|row st IH]; [reflexivity|]. cbn. rewrite <- IH. reflexivity.
  - induction st as [|row st IH]; [reflexivity|]. cbn. rewrite <- IH. reflexivity.
Qed.

Lemma precleared_idempotent p st : precleared p (precleared p st) = precleared p st.
Proof.
  rewrite !precleared_survivors.
  induction st as [|row st IH]; [reflexivity|]. cbn.
  destruct (survives_preclear p row) eqn:E; cbn; rewrite ?E, IH; reflexivity.
Qed.

Lemma precleared_app p st1 st2 :
  precleared p (st1 ++ st2) = precleared p st1 ++ precleared p st2.
Proof. rewrite !precleared_survivors. apply List.filter_app. Qed.

Lemma console_errors_app tr1 tr2 :
  List.filter is_console_error (tr1 ++ tr2) =
  List.filter is_console_error tr1 ++ List.filter is_console_error tr2.
Proof. apply List.filter_app. Qed.

Lemma console_errors_inserts rows :
  List.filter is_console_error (map EvInsert rows) = [].
Proof. induction rows as [|row rows IH]; [reflexivity | exact IH]. Qed.

Lemma console_errors_preclear_trace p :
  List.filter is_console_error (preclear_trace p) = [].
Proof. unfold preclear_trace. destruct (audited p); reflexivity. Qed.

Lemma network_calls_inserts rows :
  List.filter is_network_call (map EvInsert rows) = [].
Proof. induction rows as [|row rows IH]; [reflexivity | exact IH]. Qed.

Lemma network_calls_preclear_trace p :
  List.filter is_network_call (preclear_trace p) = [].
Proof. unfold preclear_trace. destruct (audited p); reflexivity. Qed.

Lemma truthy_shown d : truthy (shown d) = true.
Proof.
  unfold shown, jsOr.
  destruct (truthy (probed d)) eqn:E1; cbv iota.
  - rewrite E1. exact E1.
  - destruct (truthy (field d "result")) eqn:E2; cbv iota; [exact E2 | reflexivity].
Qed.

Section MorePipeline.

Variable ApiError : JsValue -> Thrown.
Variable nullRead : string -> ErrorObj.

Local Abbreviation call := (testApi ApiError nullRead).

Lemma inserted_sent p :
  inserted (preclear_trace p ++ [EvFetch (url (apiConfig p)) (requestInit p)]) = [].
Proof. rewrite inserted_app, inserted_preclear_trace. reflexivity. Qed.

(** The table a call leaves, whether or not the identity is configured. *)
Lemma final_structure net p st :
  final (call net p st) = precleared p st ++ inserted (trace (call net p st))
  \/ (~ configured p /\ final (call net p st) = st /\ trace (call net p st) = []).
Proof.
  destruct (configured_dec p) as [Hp | Hp].
  - left. rewrite (call_outcome _ _ _ _ _ Hp). cbv zeta.
    destruct (net _ _) as [e|r]; [|destruct (resp_json r) as [e|d];
      [|destruct (readable d); [destruct (resp_ok r)|]]];
      rewrite ?inserted_failed; unfold failed; cbn [final trace];
      rewrite ?(inserted_app (_ ++ [_]) (map EvInsert _)), ?inserted_sent,
        ?inserted_map_EvInsert;
      cbn [app]; rewrite ?app_nil_r, ?app_assoc; reflexivity.
  - right. destruct (call_unconfigured ApiError nullRead net p st Hp) as (msg & _ & ->).
    auto.
Qed.

(** Every row a call inserts is a row of its own workflow. *)
Lemma inserted_rows_of_workflow net p st row :
  In row (inserted (trace (call net p st))) -> audited p = Some (workflow_id row).
Proof.
  destruct (configured_dec p) as [Hp | Hp].
  - rewrite (call_outcome _ _ _ _ _ Hp). cbv zeta.
    assert (Hfail : forall error, In row (failure_rows p error) ->
                                  audited p = Some (workflow_id row)).
    { intros error. unfold failure_rows. destruct (audited p) as [wf|]; [|intros []].
      destruct (propUndefined _ _); [intros []|].
      intros [<- | []]. destruct error; reflexivity. }
    assert (Hstep : forall r d, In row (step5 p r d) ->
                                audited p = Some (workflow_id row)).
    { intros r d. unfold step5. destruct (audited p) as [wf|]; [|intros []].
      destruct (_ || _); [|intros []]. intros [<- | []]. reflexivity. }
    destruct (net _ _) as [e|r]; [|destruct (resp_json r) as [e|d];
      [|destruct (readable d); [destruct (resp_ok r)|]]];
      rewrite ?inserted_failed; cbn [trace];
      rewrite ?(inserted_app (_ ++ [_]) (map EvInsert _)), ?inserted_sent,
        ?inserted_map_EvInsert;
      cbn [app]; rewrite ?in_app_iff;
      intros H; repeat destruct H as [H | H]; eauto; destruct H.
  - destruct (call_unconfigured ApiError nullRead net p st Hp) as (msg & _ & ->).
    intros [].
Qed.

(** X1.  A call never removes a row of another workflow, nor a row whose
    message is not "API request successful": every such row of the table is
    still there afterwards. *)
Theorem call_keeps_unrelated_rows net p st row :
  In row st ->
  workflowId p <> Some (workflow_id row) \/ message row <> "API request successful" ->
  In row (final (testApi ApiError nullRead net p st)).
Proof.
  intros Hin Hother.
  assert (Hkeep : In row (precleared p st)).
  { rewrite precleared_survivors. apply List.filter_In. split; [exact Hin|].
    unfold survives_preclear. destruct (workflowId p) as [wf|]; [|reflexivity].
    apply negb_true_iff, andb_false_iff.
    destruct Hother as [Hwf | Hmsg].
    - left. apply andb_false_iff. right. apply eqb_string_false. congruence.
    - right. apply eqb_string_false. exact Hmsg. }
  destruct (final_structure net p st) as [-> | (_ & -> & _)]; [|exact Hin].
  apply in_app_iff. left. exact Hkeep.
Qed.

(** X2.  The table after a call is the table before it without the rows of
    the call's (non-empty) workflow whose message is "API request
    successful", followed by the rows the call inserted, in order; every
    inserted row carries the call's [workflowId]. *)
Theorem call_table_is_preclear_then_inserts net p st :
  configured p ->
  let o := testApi ApiError nullRead net p st in
  final o = List.filter (survives_preclear p) st ++ inserted (trace o) /\
  Forall (fun row => workflowId p = Some (workflow_id row) /\ workflow_id row <> "")
         (inserted (trace o)).
Proof.
  intros Hp o. subst o. split.
  - destruct (final_structure net p st) as [-> | (Hno & _)]; [|contradiction].
    rewrite precleared_survivors. reflexivity.
  - apply List.Forall_forall. intros row Hrow.
    apply inserted_rows_of_workflow in Hrow. unfold audited in Hrow.
    destruct (workflowId p) as [wf|]; [|discriminate].
    destruct (JsString.truthy wf) eqn:E; [|discriminate].
    injection Hrow as ->. split; [reflexivity|].
    apply truthy_string_true. exact E.
Qed.

(** X3.  A call with a configured identity sends exactly one request, to
    the configured url, with the configured method and content type, the
    [Authorization] header computed from the token, and a body holding
    [workerId] and [variables] unchanged; nothing is retried. *)
Theorem call_sends_exactly_one_request net p st :
  configured p ->
  List.filter is_network_call (trace (testApi ApiError nullRead net p st)) =
  [EvFetch (url (apiConfig p))
           (mkInit (method (apiConfig p)) (content_type (apiConfig p))
                   (authorization (apiAuthToken p)) (workerId p) (variables p))].
Proof.
  intros Hp. rewrite (call_outcome _ _ _ _ _ Hp). cbv zeta. unfold failed.
  fold (requestInit p).
  destruct (net _ _) as [e|r]; [|destruct (resp_json r) as [e|d];
    [|destruct (readable d); [destruct (resp_ok r)|]]];
    cbn [trace]; rewrite !List.filter_app; cbn [List.filter is_network_call app];
    rewrite ?List.filter_app, ?network_calls_inserts, ?network_calls_preclear_trace;
    cbn [List.filter is_network_call app]; rewrite ?app_nil_r; reflexivity.
Qed.

(** X4.  A call that returns normally returns [success: true] and a truthy
    response: the response text is never empty, [null] or [undefined]. *)
Theorem returned_response_is_truthy net p st a :
  completion (testApi ApiError nullRead net p st) = Return a ->
  success a = true /\ truthy (data_response a) = true /\
  data_response a <> JStr "" /\ data_response a <> JNull /\
  data_response a <> JUndefined.
Proof.
  intros Hret.
  destruct (call_returns _ _ _ _ _ _ Hret) as (r & d & Hp & Hnet & Hjson & Hread & Hok & _).
  rewrite (completion_decoded _ _ _ _ _ _ _ Hp Hnet Hjson Hread), Hok in Hret.
  injection Hret as <-. cbn [success data_response].
  pose proof (truthy_shown d) as Ht.
  repeat split; try exact Ht; intros Heq; rewrite Heq in Ht; discriminate Ht.
Qed.

(** X5.  A call returns normally exactly when its identity is configured,
    the request is answered, the body decodes to a value other than [null]
    and the status is in 200-299; in every other case it raises. *)
Theorem call_returns_iff net p st :
  (exists a, completion (testApi ApiError nullRead net p st) = Return a) <->
  configured p /\
  exists r d,
    net (url (apiConfig p)) (requestInit p) = inr r /\
    resp_json r = inr d /\ d <> JNull /\ d <> JUndefined /\
    200 <= resp_status r <= 299.
Proof.
  split.
  - intros [a Hret].
    destruct (call_returns _ _ _ _ _ _ Hret)
      as (r & d & Hp & Hnet & Hjson & Hread & Hok & _).
    split; [exact Hp|]. exists r, d. split; [exact Hnet|]. split; [exact Hjson|].
    split; [intros ->; discriminate|]. split; [intros ->; discriminate|].
    unfold resp_ok in Hok. apply andb_true_iff in Hok as [H1 H2].
    apply Z.leb_le in H1, H2. lia.
  - intros (Hp & r & d & Hnet & Hjson & Hnull & Hundef & Hlo & Hhi).
    exists (mkApiResponse true (shown d)).
    rewrite (completion_decoded _ _ _ _ _ _ _ Hp Hnet Hjson (readable_true _ Hnull Hundef)).
    unfold resp_ok.
    apply Z.leb_le in Hlo, Hhi. rewrite Hlo, Hhi. reflexivity.
Qed.

Lemma precleared_step5_success p r d :
  resp_ok r = true -> precleared p (step5 p r d) = [].
Proof.
  intros Hok. unfold precleared, step5, response_row.
  destruct (audited p) as [wf|]; [|reflexivity].
  destruct (_ || _); [|reflexivity].
  rewrite Hok. cbn [List.filter]. unfold row_matches, JsString.eqb.
  cbn [workflow_id message]. rewrite !Stdlib.Strings.String.eqb_refl. reflexivity.
Qed.

(** X6.  When the body of the response decodes to [null], reading
    [data.result] raises the engine's [TypeError] whatever the status is:
    that error, not an [ApiError], is what the call raises, and step 5 is
    never reached, so no step-5 row is written even for a non-2xx status. *)
Theorem null_body_raises_type_error net p st r :
  configured p ->
  net (url (apiConfig p)) (requestInit p) = inr r ->
  resp_json r = inr JNull ->
  let o := testApi ApiError nullRead net p st in
  completion o = Throw (ThrownError (nullRead "result")) /\
  step5_rows (trace o) = [] /\
  (variables p !! "workflow" = None -> inserted (trace o) = []).
Proof.
  intros Hp Hnet Hjson o. subst o.
  rewrite (call_outcome _ _ _ _ _ Hp). cbv zeta. rewrite Hnet, Hjson. cbn [readable].
  split; [reflexivity|]. unfold step5_rows.
  rewrite inserted_failed, inserted_sent. cbn [app]. split.
  - apply step5_rows_failure_rows.
  - intros Hvar. apply propUndefined_true in Hvar. unfold failure_rows.
    rewrite Hvar. destruct (audited p); reflexivity.
Qed.

(** X7.  Running a call that returned normally a second time, with the same
    request and the same answer, returns the same value and leaves the
    table exactly as the first run left it. *)
Theorem successful_call_is_idempotent_on_table net p st a :
  completion (testApi ApiError nullRead net p st) = Return a ->
  let first := testApi ApiError nullRead net p st in
  let second := testApi ApiError nullRead net p (final first) in
  completion second = Return a /\ final second = final first.
Proof.
  intros Hret first second. subst first second.
  destruct (call_returns _ _ _ _ _ _ Hret)
    as (r & d & Hp & Hnet & Hjson & Hread & Hok & Hfinal).
  assert (Hret2 : completion (call net p (final (call net p st))) = Return a).
  { rewrite (completion_decoded _ _ _ _ _ _ _ Hp Hnet Hjson Hread).
    rewrite (completion_decoded _ _ _ _ _ _ _ Hp Hnet Hjson Hread) in Hret.
    exact Hret. }
  split; [exact Hret2|].
  destruct (call_returns _ _ _ _ _ _ Hret2)
    as (r' & d' & _ & Hnet' & Hjson' & _ & _ & ->).
  rewrite Hnet in Hnet'. injection Hnet' as <-.
  rewrite Hjson in Hjson'. injection Hjson' as <-.
  rewrite Hfinal, precleared_app, precleared_idempotent.
  rewrite (precleared_step5_success _ _ _ Hok), app_nil_r. reflexivity.
Qed.

(** X8.  A call with a configured identity reports to [console.error]
    exactly once when it raises, with the raised error's message and stack
    and the context [{ workerId, url, method }], and not at all when it
    returns. *)
Theorem failures_are_reported_exactly_once net p st :
  configured p ->
  let o := testApi ApiError nullRead net p st in
  List.filter is_console_error (trace o) =
  match completion o with
  | Return _ => []
  | Throw error =>
      [EvConsoleError "Error occurred:"
         (mkPayload
            (match error with
             | ThrownError e => err_message e
             | ThrownOther _ => "An unknown error occurred"
             end)
            (match error with
             | ThrownError e => err_stack e
             | ThrownOther _ => None
             end)
            (workerId p) (url (apiConfig p)) (method (apiConfig p)))]
  end.
Proof.
  intros Hp o. subst o. rewrite (call_outcome _ _ _ _ _ Hp). cbv zeta. unfold failed.
  destruct (net _ _) as [e|r]; [|destruct (resp_json r) as [e|d];
    [|destruct (readable d); [destruct (resp_ok r)|]]];
    cbn [trace completion];
    rewrite !console_errors_app; cbn [List.filter is_console_error app];
    rewrite ?console_errors_app, ?console_errors_inserts, ?console_errors_preclear_trace;
    cbn [List.filter is_console_error app]; rewrite ?app_nil_r; reflexivity.
Qed.

(** X9.  An API test (no [workflow] variable) whose request is rejected, or
    whose answer cannot be decoded, raises that rejection and writes no
    row; the pre-clear has run all the same, so the workflow's earlier
    success rows are gone. *)
Theorem failed_api_test_erases_marker_and_writes_nothing net p st error :
  configured p ->
  variables p !! "workflow" = None ->
  net (url (apiConfig p)) (requestInit p) = inl error \/
  (exists r, net (url (apiConfig p)) (requestInit p) = inr r /\
             resp_json r = inl error) ->
  let o := testApi ApiError nullRead net p st in
  completion o = Throw error /\
  inserted (trace o) = [] /\
  final o = List.filter (survives_preclear p) st.
Proof.
  intros Hp Hvar Hfail o. subst o. apply propUndefined_true in Hvar.
  assert (Hrows : failure_rows p error = []).
  { unfold failure_rows. rewrite Hvar. destruct (audited p); reflexivity. }
  rewrite (call_outcome _ _ _ _ _ Hp). cbv zeta.
  destruct Hfail as [-> | (r & -> & ->)];
    (split; [reflexivity|]); rewrite inserted_failed, inserted_sent, Hrows;
    (split; [reflexivity|]); unfold failed; cbn [final]; rewrite Hrows, app_nil_r;
    apply precleared_survivors.
Qed.

End MorePipeline.

(** X10.  Whatever the token is, the [Authorization] header starts with
    "Bearer ": what follows is the whole token, or the rest of a token that
    already had the prefix. *)
Theorem authorization_always_bearer token :
  exists rest,
    authorization token = "Bearer " +:+ rest /\
    (rest = token \/ token = "Bearer " +:+ rest).
Proof.
  unfold authorization.
  destruct (JsString.startsWith token "Bearer ") eqn:E.
  - apply startsWith_iff in E as [rest ->]. exists rest. auto.
  - exists token. auto.
Qed.

(* ===================================================================== *)
(** * [logWorkflowError] ([lib/error-handling.ts]) *)
(* ===================================================================== *)

Module WorkflowErrors.

(** The row [logWorkflowError] writes; its [details] are
    [{ error, stack, context }]. *)
Record ErrorRow : Type := mkErrorRow {
  row_workflow_id : string;
  row_level : string;
  row_message : string;
  row_error : string;                                (* details.error *)
  row_stack : option string;                         (* details.stack *)
  row_context : option (list (string * JsValue));    (* details.context *)
}.

(** The client passed in: how awaiting
    [supabase.from('workflow_logs').insert(row)] completes -- it resolves
    (the result is not read) or it raises the given value. *)
Definition Client : Type := ErrorRow -> option Thrown.

Inductive Effect : Type :=
| InsertRequested (row : ErrorRow)
| ConsoleError (label : string) (what : Thrown).

Record Run (A : Type) : Type := mkRun {
  outcome : Completion A;
  effects : list Effect;
}.
Arguments mkRun {A} _ _.
Arguments outcome {A} _.
Arguments effects {A} _.

Definition done {A} (a : A) : Run A := mkRun (Return a) [].

Definition andThen {A B} (m : Run A) (k : A -> Run B) : Run B :=
  match m with
  | mkRun (Return a) tr =>
      match k a with
      | mkRun c tr' => mkRun c (tr ++ tr')
      end
  | mkRun (Throw t) tr => mkRun (Throw t) tr
  end.

(** [try { m } catch (err) { h err }] *)
Definition tryCatch {A} (m : Run A) (h : Thrown -> Run A) : Run A :=
  match m with
  | mkRun (Return a) tr => mkRun (Return a) tr
  | mkRun (Throw t) tr =>
      match h t with
      | mkRun c tr' => mkRun c (tr ++ tr')
      end
  end.

(** [await supabase.from('workflow_logs').insert(row)] *)
Definition insert (supabase : Client) (row : ErrorRow) : Run unit :=
  match supabase row with
  | None => mkRun (Return tt) [InsertRequested row]
  | Some rejection => mkRun (Throw rejection) [InsertRequested row]
  end.

Definition consoleError (label : string) (what : Thrown) : Run unit :=
  mkRun (Return tt) [ConsoleError label what].

Definition logWorkflowError (supabase : Client) (workflowId : string)
    (error : Thrown) (context : option (list (string * JsValue))) : Run unit :=
  tryCatch
    (let errorMessage :=
       match error with
       | ThrownError e => err_message e
       | ThrownOther _ => "An unknown error occurred"
       end in
     insert supabase
       (mkErrorRow workflowId "error" errorMessage errorMessage
          (match error with
           | ThrownError e => err_stack e
           | ThrownOther _ => None
           end)
          context))
    (fun err => consoleError "Failed to log workflow error:" err).

(** X11.  [logWorkflowError] never raises: whatever the client does and
    whatever was thrown, it completes normally; a rejection by the client
    is passed to [console.error] once and is not propagated, and nothing
    is printed when the client resolves. *)
Theorem logWorkflowError_never_raises supabase workflowId error context :
  let run := logWorkflowError supabase workflowId error context in
  outcome run = Return tt /\
  exists row,
    (effects run = [InsertRequested row] /\ supabase row = None) \/
    (exists rejection,
       supabase row = Some rejection /\
       effects run =
         [InsertRequested row;
          ConsoleError "Failed to log workflow error:" rejection]).
Proof.
  intros run. subst run. unfold logWorkflowError, tryCatch, insert, consoleError.
  match goal with |- context [supabase ?r] => destruct (supabase r) as [t|] eqn:E end.
  - split; [reflexivity|]. eexists. right. exists t. split; [exact E | reflexivity].
  - split; [reflexivity|]. eexists. left. split; [reflexivity | exact E].
Qed.

(** The one row [logWorkflowError] asks to insert is at level
    "error" for the given workflow, with the given context, and its message
    and its [details.error] are the same string: the error's message, or
    "An unknown error occurred" (with no stack) when what was thrown is not
    an [Error]. *)
Theorem logWorkflowError_row supabase workflowId error context :
  exists row rest,
    effects (logWorkflowError supabase workflowId error context) =
      InsertRequested row :: rest /\
    Forall (fun e => forall other, e <> InsertRequested other) rest /\
    row_workflow_id row = workflowId /\ row_level row = "error" /\
    row_context row = context /\
    row_message row = row_error row /\
    (forall e, error = ThrownError e ->
               row_message row = err_message e /\ row_stack row = err_stack e) /\
    (instanceofError error = false ->
     row_message row = "An unknown error occurred" /\ row_stack row = None).
Proof.
  unfold logWorkflowError, tryCatch, insert, consoleError.
  match goal with |- context [supabase ?r] => destruct (supabase r) as [t|] end;
    eexists; eexists; (split; [reflexivity|]);
    (split; [apply List.Forall_forall; intros e He other ->; cbn in He;
             intuition discriminate|]); cbn;
    (split; [reflexivity|]); (split; [reflexivity|]); (split; [reflexivity|]);
    (split; [reflexivity|]);
    (split; [intros e0 ->; split; reflexivity|]);
    (destruct error; [discriminate | split; reflexivity]).
Qed.

End WorkflowErrors.

(* ===================================================================== *)
(** * The workflow form ([components/WorkflowForm.tsx]) *)
(* ===================================================================== *)

Module Form.

(** ** State and props *)

(** [interface Variable] *)
Record Var : Type := mkVariable {
  var_name : string;
  var_value : string;
}.

Inductive Tab : Type := TabGeneral | TabApi | TabVariables.

(** The component's [useState] cells. *)
Record State : Type := mkState {
  saving : bool;
  activeTab : Tab;
  st_variables : list Var;
  showAddVariable : bool;
  newVariable : Var;
  testingApi : bool;
  st_apiAuthToken : string;
  st_workerId : string;
  supportsDocuments : bool;
  supportsImages : bool;
}.

Definition initial : State :=
  mkState false TabGeneral [mkVariable "request" "request"] false
          (mkVariable "" "") false "" "" false false.

(** An element of [workflow.variables] as it arrives. *)
Record RawVariable : Type := mkRaw {
  raw_name : JsValue;
  raw_value : JsValue;
}.

(** What the component reads of the [workflow] prop.  [wf_variables] is
    [None] when the property is falsy or not an array. *)
Record Workflow : Type := mkWorkflow {
  wf_id : string;
  wf_supports_documents : JsValue;
  wf_supports_images : JsValue;
  wf_worker_id : option string;
  wf_api_auth_token : option string;
  wf_variables : option (list RawVariable);
}.

(** The validated form values handed to [onSubmit]. *)
Record WorkflowFormData : Type := mkData {
  data_name : option string;
  data_description : JsValue;
  data_status : JsValue;
  data_stages : JsValue;
  data_assignment_rules : JsValue;
  data_approval_levels : JsValue;
}.

(** The object written to the [workflows] table. *)
Record WorkflowRow : Type := mkWorkflowRow {
  w_name : option string;
  w_description : JsValue;
  w_status : JsValue;
  w_stages : JsValue;
  w_assignment_rules : JsValue;
  w_approval_levels : JsValue;
  w_worker_id : string;
  w_api_auth_token : string;
  w_api_config : ApiConfig;
  w_variables : list Var;
  w_created_by : string;
  w_supports_documents : bool;
  w_supports_images : bool;
}.

Inductive SaveRequest : Type :=
| Update (row : WorkflowRow) (id : string)     (* .update(row).eq('id', id) *)
| Insert (row : WorkflowRow).                  (* .insert([row]) *)

(** The services [onSubmit] awaits.  [getUser]: the call raises, or
    resolves with [user?.user?.id] ([None] when some link is missing).
    [save]: the call raises, or resolves with [error?.message] ([None] when
    [error] is null). *)
Record Backend : Type := mkBackend {
  getUser : Thrown + option string;
  save : SaveRequest -> Thrown + option string;
}.

(** What the handlers do that is visible outside them.  The toasts, the
    state setters, [console.error] and the [onSave] prop are taken to
    return once called. *)
Inductive UiEvent : Type :=
| SetSaving (b : bool)
| SetTestingApi (b : bool)
| ToastError (text : string)
| ToastSuccess (text : string)
| ConsoleError (label : string) (what : Thrown)
| ConsoleSupabaseError (label : string) (msg : string)
| GetUser
| Save (request : SaveRequest)
| OnSave
| Api (e : Event).

(** ** The effect monad of the handlers *)

Record Ran (A : Type) : Type := mkRan {
  ended : Completion A;
  table : list LogRow;              (* workflow_logs *)
  happened : list UiEvent;
}.
Arguments mkRan {A} _ _ _.
Arguments ended {A} _.
Arguments table {A} _.
Arguments happened {A} _.

Definition U (A : Type) : Type := list LogRow -> Ran A.

Definition pure {A} (a : A) : U A := fun st => mkRan (Return a) st [].

Definition raise {A} (t : Thrown) : U A := fun st => mkRan (Throw t) st [].

Definition later {A} (tr : list UiEvent) (r : Ran A) : Ran A :=
  match r with
  | mkRan c st tr' => mkRan c st (tr ++ tr')
  end.

Definition seq {A B} (m : U A) (k : A -> U B) : U B :=
  fun st =>
    match m st with
    | mkRan (Return a) st' tr => later tr (k a st')
    | mkRan (Throw t) st' tr => mkRan (Throw t) st' tr
    end.

(** [try { m } catch (error) { h error }] *)
Definition tryCatch {A} (m : U A) (h : Thrown -> U A) : U A :=
  fun st =>
    match m st with
    | mkRan (Return a) st' tr => mkRan (Return a) st' tr
    | mkRan (Throw t) st' tr => later tr (h t st')
    end.

(** [try { m } finally { f }] *)
Definition tryFinally {A} (m : U A) (f : U unit) : U A :=
  fun st =>
    match m st with
    | mkRan c st' tr =>
        match f st' with
        | mkRan (Return _) st'' tr' => mkRan c st'' (tr ++ tr')
        | mkRan (Throw t) st'' tr' => mkRan (Throw t) st'' (tr ++ tr')
        end
    end.

Definition emit (e : UiEvent) : U unit := fun st => mkRan (Return tt) st [e].

(** A call into [lib/api.ts]. *)
Definition liftApi {A} (m : M A) : U A :=
  fun st =>
    match m st with
    | mkOutcome c st' tr => mkRan c st' (map Api tr)
    end.

#[global] Instance U_ret : MRet U := @pure.
#[global] Instance U_bind : MBind U := fun A B k m => seq m k.

(** ** The code *)

(** [prev.filter((_, i) => keep(i))], counting from [i]. *)
Fixpoint filterIndex {A} (keep : nat -> bool) (i : nat) (l : list A) : list A :=
  match l with
  | [] => []
  | x :: rest =>
      if keep i then x :: filterIndex keep (S i) rest
      else filterIndex keep (S i) rest
  end.

(** [Object.fromEntries(variables.map(v => [v.name, v.value]))]: a later
    entry replaces an earlier one of the same name. *)
Definition fromEntries (vars : list Var) : gmap string string :=
  foldl (fun m v => <[var_name v := var_value v]> m) ∅ vars.

Section Code.

(** [String.prototype.trim]. *)
Variable trim : string -> string.

Variable ApiError : JsValue -> Thrown.
Variable captureStack : string -> option string.
Variable nullRead : string -> ErrorObj.

(** [x?.trim() || ''] *)
Definition trimmedOrEmpty (x : option string) : string :=
  match x with
  | Some v => if JsString.truthy (trim v) then trim v else ""
  | None => ""
  end.

(** [x === true] *)
Definition isTrue (v : JsValue) : bool :=
  match v with
  | JBool true => true
  | _ => false
  end.

(** [typeof x === 'string' ? x : ''] *)
Definition stringOrEmpty (v : JsValue) : string :=
  match v with
  | JStr s => s
  | _ => ""
  end.

(** The body of the [useEffect] that runs when [workflow] arrives. *)
Definition workflowReceived (workflow : option Workflow) (s : State) : State :=
  match workflow with
  | Some w =>
      mkState (saving s) (activeTab s)
        (match wf_variables w with
         | Some items =>
             let formattedVars :=
               map (fun v => mkVariable (stringOrEmpty (raw_name v))
                                        (stringOrEmpty (raw_value v))) items in
             if (0 <? length formattedVars)%nat then formattedVars
             else [mkVariable "request" "request"]
         | None => st_variables s
         end)
        (showAddVariable s) (newVariable s) (testingApi s)
        (trimmedOrEmpty (wf_api_auth_token w))
        (trimmedOrEmpty (wf_worker_id w))
        (isTrue (wf_supports_documents w))
        (isTrue (wf_supports_images w))
  | None => s
  end.

Definition withVariables (vars : list Var) (s : State) : State :=
  mkState (saving s) (activeTab s) vars (showAddVariable s) (newVariable s)
          (testingApi s) (st_apiAuthToken s) (st_workerId s)
          (supportsDocuments s) (supportsImages s).

Definition handleAddVariable (s : State) : State :=
  if JsString.truthy (var_name (newVariable s)) &&
     JsString.truthy (var_value (newVariable s))
  then
    mkState (saving s) (activeTab s)
      (st_variables s ++
       [mkVariable (trim (var_name (newVariable s)))
                   (trim (var_value (newVariable s)))])
      false (mkVariable "" "")
      (testingApi s) (st_apiAuthToken s) (st_workerId s)
      (supportsDocuments s) (supportsImages s)
  else s.

(** [index] is the position of a rendered row. *)
Definition handleRemoveVariable (index : nat) (s : State) : State :=
  if (index =? 0)%nat then s (* Prevent removing the 'request' variable *)
  else withVariables
         (filterIndex (fun i => negb (i =? index)%nat) 0 (st_variables s)) s.

(** The [onChange] of the value input of row [index].  The input is
    rendered once per element of [variables]; there is no handler for any
    other index ([None]). *)
Definition changeValue (index : nat) (v : string) (s : State) : option State :=
  match st_variables s !! index with
  | Some old =>
      Some (withVariables (<[index := mkVariable (var_name old) v]> (st_variables s)) s)
  | None => None
  end.

(** The variables the test request carries:
    [{ ...Object.fromEntries(...), workflow: watch('name') || '' }]. *)
Definition testVariables (vars : list Var) (watchedName : option string)
    : gmap string string :=
  <["workflow" := match watchedName with
                  | Some n => if JsString.truthy n then n else ""
                  | None => ""
                  end]> (fromEntries vars).

Definition testParams (workflow : option Workflow) (watchedName : option string)
    (s : State) : TestApiParams :=
  mkParams (st_workerId s) (st_apiAuthToken s)
           (mkApiConfig "post" "https://api.mindstudio.ai/developer/v2/workers/run"
                        "application/json")
           (testVariables (st_variables s) watchedName)
           (wf_id <$> workflow).

Definition handleTestApi (net : Network) (workflow : option Workflow)
    (watchedName : option string) (s : State) : U unit :=
  if negb (JsString.truthy (st_workerId s)) then
    emit (ToastError "Worker ID is required")
  else if negb (JsString.truthy (st_apiAuthToken s)) then
    emit (ToastError "Authorization token is required")
  else
    tryFinally
      (tryCatch
         (emit (SetTestingApi true);;
          if negb (JsString.truthy (st_workerId s)) then
            emit (ToastError "Worker ID is required")
          else if negb (JsString.truthy (st_apiAuthToken s)) then
            emit (ToastError "Authorization token is required")
          else
            liftApi (testApi ApiError nullRead net (testParams workflow watchedName s));;
            emit (ToastSuccess "API test successful"))
         (fun error =>
            emit (ToastError (match error with
                              | ThrownError e => err_message e
                              | ThrownOther _ => "API test failed"
                              end))))
      (emit (SetTestingApi false)).

(** [!x?.trim()] *)
Definition blank (x : string) : bool := negb (JsString.truthy (trim x)).

(** The [missingFields] array of [onSubmit]. *)
Definition missingFields (data : WorkflowFormData) (s : State) : list string :=
  let missing0 := [] in
  let missing1 :=
    if match data_name data with Some n => blank n | None => true end
    then missing0 ++ ["Workflow Name"] else missing0 in
  let missing2 :=
    if blank (st_workerId s) then missing1 ++ ["Worker ID"] else missing1 in
  let missing3 :=
    if blank (st_apiAuthToken s) then missing2 ++ ["Authorization"] else missing2 in
  if (length (st_variables s) =? 0)%nat
  then missing3 ++ ["At least one variable"] else missing3.

(** The row [onSubmit] saves, for the authenticated user [userId]. *)
Definition workflowData (data : WorkflowFormData) (s : State) (userId : string)
    : WorkflowRow :=
  mkWorkflowRow
    (data_name data) (data_description data) (data_status data) (data_stages data)
    (data_assignment_rules data) (data_approval_levels data)
    (trim (st_workerId s))
    (if JsString.startsWith (trim (st_apiAuthToken s)) "Bearer "
     then trim (st_apiAuthToken s)
     else "Bearer " +:+ trim (st_apiAuthToken s))
    (mkApiConfig "post" "https://api.mindstudio.ai/developer/v2/workers/run"
                 "application/json")
    (map (fun v => mkVariable (trim (var_name v)) (trim (var_value v)))
         (st_variables s))
    userId
    (supportsDocuments s) (supportsImages s).

(** [await supabase.auth.getUser()] *)
Definition awaitUser (backend : Backend) : U (option string) :=
  emit GetUser;;
  match getUser backend with
  | inl rejection => raise rejection
  | inr user => mret user
  end.

(** [await supabase.from('workflows').update(...)] or [.insert(...)] *)
Definition awaitSave (backend : Backend) (request : SaveRequest)
    : U (option string) :=
  emit (Save request);;
  match save backend request with
  | inl rejection => raise rejection
  | inr error => mret error
  end.

Definition onSubmit (backend : Backend) (workflow : option Workflow)
    (s : State) (data : WorkflowFormData) : U unit :=
  tryFinally
    (tryCatch
       (emit (SetSaving true);;
        (* Check mandatory fields *)
        if (0 <? length (missingFields data s))%nat then
          emit (ToastError ("Missing required fields: " +:+
                            Stdlib.Strings.String.concat ", " (missingFields data s)));;
          emit (SetSaving false)
        else
          user ← awaitUser backend;
          match user with
          | Some userId =>
              if JsString.truthy userId then
                error ← awaitSave backend
                          (match workflow with
                           | Some w => Update (workflowData data s userId) (wf_id w)
                           | None => Insert (workflowData data s userId)
                           end);
                match error with
                | Some msg =>
                    emit (ConsoleSupabaseError "Supabase error:" msg);;
                    raise (newError captureStack msg)
                | None =>
                    emit (ToastSuccess (match workflow with
                                        | Some _ => "Workflow updated"
                                        | None => "Workflow created"
                                        end));;
                    emit OnSave
                end
              else raise (newError captureStack "User not authenticated")
          | None => raise (newError captureStack "User not authenticated")
          end)
       (fun error =>
          emit (ConsoleError "Error:" error);;
          emit (ToastError (match error with
                            | ThrownError e => err_message e
                            | ThrownOther _ => "Failed to save workflow"
                            end))))
    (emit (SetSaving false)).

End Code.

(** ** The form as a state machine *)

Inductive Action : Type :=
| WorkflowReceived (workflow : option Workflow)
| SelectTab (t : Tab)
| TypeWorkerId (v : string)
| TypeAuthToken (v : string)
| CheckDocuments (b : bool)
| CheckImages (b : bool)
| ChangeValue (index : nat) (v : string)
| RemoveVariable (index : nat)
| OpenAddVariable
| TypeNewName (v : string)
| TypeNewValue (v : string)
| CancelAddVariable
| AddVariable
| SavingSet (b : bool)
| TestingSet (b : bool).

Definition step (trim : string -> string) (s : State) (a : Action) : option State :=
  match a with
  | WorkflowReceived workflow => Some (workflowReceived trim workflow s)
  | SelectTab t =>
      Some (mkState (saving s) t (st_variables s) (showAddVariable s) (newVariable s)
                    (testingApi s) (st_apiAuthToken s) (st_workerId s)
                    (supportsDocuments s) (supportsImages s))
  | TypeWorkerId v =>
      Some (mkState (saving s) (activeTab s) (st_variables s) (showAddVariable s)
                    (newVariable s) (testingApi s) (st_apiAuthToken s) v
                    (supportsDocuments s) (supportsImages s))
  | TypeAuthToken v =>
      Some (mkState (saving s) (activeTab s) (st_variables s) (showAddVariable s)
                    (newVariable s) (testingApi s) v (st_workerId s)
                    (supportsDocuments s) (supportsImages s))
  | CheckDocuments b =>
      Some (mkState (saving s) (activeTab s) (st_variables s) (showAddVariable s)
                    (newVariable s) (testingApi s) (st_apiAuthToken s) (st_workerId s)
                    b (supportsImages s))
  | CheckImages b =>
      Some (mkState (saving s) (activeTab s) (st_variables s) (showAddVariable s)
                    (newVariable s) (testingApi s) (st_apiAuthToken s) (st_workerId s)
                    (supportsDocuments s) b)
  | ChangeValue index v => changeValue index v s
  | RemoveVariable index => Some (handleRemoveVariable index s)
  | OpenAddVariable =>
      Some (mkState (saving s) (activeTab s) (st_variables s) true (newVariable s)
                    (testingApi s) (st_apiAuthToken s) (st_workerId s)
                    (supportsDocuments s) (supportsImages s))
  | TypeNewName v =>
      Some (mkState (saving s) (activeTab s) (st_variables s) (showAddVariable s)
                    (mkVariable v (var_value (newVariable s)))
                    (testingApi s) (st_apiAuthToken s) (st_workerId s)
                    (supportsDocuments s) (supportsImages s))
  | TypeNewValue v =>
      Some (mkState (saving s) (activeTab s) (st_variables s) (showAddVariable s)
                    (mkVariable (var_name (newVariable s)) v)
                    (testingApi s) (st_apiAuthToken s) (st_workerId s)
                    (supportsDocuments s) (supportsImages s))
  | CancelAddVariable =>
      Some (mkState (saving s) (activeTab s) (st_variables s) false (mkVariable "" "")
                    (testingApi s) (st_apiAuthToken s) (st_workerId s)
                    (supportsDocuments s) (supportsImages s))
  | AddVariable => Some (handleAddVariable trim s)
  | SavingSet b =>
      Some (mkState b (activeTab s) (st_variables s) (showAddVariable s) (newVariable s)
                    (testingApi s) (st_apiAuthToken s) (st_workerId s)
                    (supportsDocuments s) (supportsImages s))
  | TestingSet b =>
      Some (mkState (saving s) (activeTab s) (st_variables s) (showAddVariable s)
                    (newVariable s) b (st_apiAuthToken s) (st_workerId s)
                    (supportsDocuments s) (supportsImages s))
  end.

(** The state after a sequence of actions, when each of them was possible. *)
Fixpoint steps (trim : string -> string) (s : State) (actions : list Action)
    : option State :=
  match actions with
  | [] => Some s
  | a :: rest =>
      match step trim s a with
      | Some s' => steps trim s' rest
      | None => None
      end
  end.

(** A stand-in for [trim] in the concrete runs: it removes leading and
    trailing spaces. *)
Fixpoint dropLeading (s : string) : string :=
  match s with
  | String c rest => if Ascii.eqb c (Ascii.ascii_of_nat 32) then dropLeading rest else s
  | EmptyString => EmptyString
  end.

Fixpoint dropTrailing (s : string) : string :=
  match s with
  | String c rest =>
      match dropTrailing rest with
      | EmptyString => if Ascii.eqb c (Ascii.ascii_of_nat 32) then EmptyString else String c EmptyString
      | kept => String c kept
      end
  | EmptyString => EmptyString
  end.

Definition spaceTrim (s : string) : string := dropTrailing (dropLeading s).

Definition is_save (e : UiEvent) : bool :=
  match e with
  | Save _ => true
  | _ => false
  end.

Definition is_toast (e : UiEvent) : bool :=
  match e with
  | ToastError _ | ToastSuccess _ => true
  | _ => false
  end.

(** ** The variable list *)

Lemma filterIndex_past {A} (l : list A) (from index : nat) :
  (index < from)%nat ->
  filterIndex (fun i => negb (i =? index)%nat) from l = l.
Proof.
  revert from. induction l as [|x l IH]; intros from Hlt; [reflexivity|].
  cbn [filterIndex].
  replace (from =? index)%nat with false by (symmetry; apply Nat.eqb_neq; lia).
  cbn [negb]. f_equal. apply IH. lia.
Qed.

Lemma filterIndex_removes {A} (l : list A) (from index : nat) :
  (from <= index)%nat ->
  filterIndex (fun i => negb (i =? index)%nat) from l =
  take (index - from) l ++ drop (S (index - from)) l.
Proof.
  revert from. induction l as [|x l IH]; intros from Hle.
  - rewrite take_nil, drop_nil. reflexivity.
  - cbn [filterIndex]. destruct (from =? index)%nat eqn:E; cbn [negb].
    + apply Nat.eqb_eq in E. subst from. rewrite Nat.sub_diag. cbn.
      apply filterIndex_past. lia.
    + apply Nat.eqb_neq in E. rewrite IH by lia.
      replace (index - from)%nat with (S (index - S from)) by lia. reflexivity.
Qed.

Lemma handleRemoveVariable_variables index s :
  let before := st_variables s in
  let after := st_variables (handleRemoveVariable index s) in
  (index = 0%nat -> handleRemoveVariable index s = s) /\
  (index <> 0%nat -> after = take index before ++ drop (S index) before) /\
  ((length before <= index)%nat -> after = before) /\
  ((0 < index < length before)%nat -> S (length after) = length before) /\
  head after = head before.
Proof.
  intros before after. subst before after. unfold handleRemoveVariable.
  destruct (index =? 0)%nat eqn:E.
  - apply Nat.eqb_eq in E. subst index.
    repeat split; try reflexivity; try lia.
  - apply Nat.eqb_neq in E. cbn [st_variables withVariables].
    rewrite (filterIndex_removes _ 0 index) by lia. rewrite Nat.sub_0_r.
    split; [intros H; contradiction|]. split; [reflexivity|]. split; [|split].
    + intros Hlen. rewrite take_ge, drop_ge by lia. apply app_nil_r.
    + intros Hlen. rewrite length_app, length_take, length_drop. lia.
    + destruct (st_variables s) as [|v vars]; [destruct index; reflexivity|].
      destruct index as [|index]; [contradiction|]. reflexivity.
Qed.

(** X12.  [handleRemoveVariable] never removes the first variable: index
    0 leaves the state as it is; any other index removes exactly the
    variable at that index and keeps the others in order, or nothing when
    there is no such variable.  The head of the list is always kept. *)
Theorem remove_variable_spares_the_first index s :
  let before := st_variables s in
  let after := st_variables (handleRemoveVariable index s) in
  (index = 0%nat -> handleRemoveVariable index s = s) /\
  (index <> 0%nat -> after = take index before ++ drop (S index) before) /\
  ((length before <= index)%nat -> after = before) /\
  ((0 < index < length before)%nat -> S (length after) = length before) /\
  head after = head before.
Proof. exact (handleRemoveVariable_variables index s). Qed.

Lemma step_keeps_variables_nonempty trim s a s' :
  step trim s a = Some s' -> st_variables s <> [] -> st_variables s' <> [].
Proof.
  destruct a; cbn [step]; try (intros [= <-]; cbn; tauto).
  - (* the workflow arrives *)
    intros [= <-]. unfold workflowReceived. destruct workflow as [w|]; [|tauto].
    cbn [st_variables]. destruct (wf_variables w) as [items|]; [|tauto].
    intros _. cbv zeta. rewrite length_map.
    destruct items; cbn; discriminate.
  - (* a value is edited *)
    unfold changeValue. destruct (st_variables s !! index) as [old|] eqn:E;
      [|discriminate].
    intros [= <-] Hne. cbn [st_variables withVariables]. intros Hnil.
    apply (f_equal length) in Hnil. rewrite length_insert in Hnil.
    destruct (st_variables s); [contradiction | discriminate].
  - (* a variable is removed *)
    intros [= <-] Hne.
    pose proof (handleRemoveVariable_variables index s) as (_ & _ & _ & _ & Hhead).
    cbv zeta in Hhead. intros Hnil. rewrite Hnil in Hhead.
    destruct (st_variables s); [contradiction | discriminate].
  - (* a variable is added *)
    intros [= <-] Hne. unfold handleAddVariable.
    destruct (_ && _); [|exact Hne]. cbn [st_variables].
    intros Hnil. apply app_eq_nil in Hnil as [_ Hnil]. discriminate.
Qed.

Lemma steps_keep_variables_nonempty trim actions s s' :
  steps trim s actions = Some s' -> st_variables s <> [] -> st_variables s' <> [].
Proof.
  revert s. induction actions as [|a actions IH]; intros s; cbn [steps].
  - intros [= <-]. tauto.
  - destruct (step trim s a) as [s1|] eqn:E; [|discriminate].
    intros Hrest Hne. apply (IH s1 Hrest).
    exact (step_keeps_variables_nonempty _ _ _ _ E Hne).
Qed.

(** X13.  Whatever the user does, starting from the initial state, the
    variable list never becomes empty; so the "At least one variable" entry
    of [onSubmit]'s missing-field list is never produced. *)
Theorem variables_never_empty trim actions s data :
  steps trim initial actions = Some s ->
  st_variables s <> [] /\
  ~ In "At least one variable" (missingFields trim data s).
Proof.
  intros Hrun.
  assert (Hne : st_variables s <> [])
    by (apply (steps_keep_variables_nonempty _ _ _ _ Hrun); discriminate).
  split; [exact Hne|]. unfold missingFields. cbv zeta.
  destruct (st_variables s) as [|v vars]; [contradiction|]. cbn [length Nat.eqb].
  destruct (match data_name data with Some n => blank trim n | None => true end);
    destruct (blank trim (st_workerId s)); destruct (blank trim (st_apiAuthToken s));
    cbn; intuition discriminate.
Qed.

(** The first variable is named "request". *)
Definition starts_with_request (s : State) : Prop :=
  exists v rest, st_variables s = mkVariable "request" v :: rest.

(** [a] does not bring a list of variables from a saved workflow. *)
Definition brings_no_variables (a : Action) : Prop :=
  match a with
  | WorkflowReceived (Some w) => wf_variables w = None
  | _ => True
  end.

Lemma step_keeps_request trim s a s' :
  brings_no_variables a ->
  step trim s a = Some s' -> starts_with_request s -> starts_with_request s'.
Proof.
  unfold starts_with_request.
  destruct a; cbn [step brings_no_variables]; intros Hno;
    try (intros [= <-]; cbn; tauto).
  - intros [= <-]. unfold workflowReceived. destruct workflow as [w|]; [|tauto].
    cbn [st_variables]. rewrite Hno. tauto.
  - unfold changeValue. destruct (st_variables s !! index) as [old|] eqn:E;
      [|discriminate].
    intros [= <-] (v0 & rest & Hvars). cbn [st_variables withVariables].
    rewrite Hvars in *. destruct index as [|index]; cbn.
    + injection E as <-. eauto.
    + eauto.
  - intros [= <-] (v0 & rest & Hvars).
    pose proof (handleRemoveVariable_variables index s) as (_ & _ & _ & _ & Hhead).
    cbv zeta in Hhead. rewrite Hvars in Hhead. cbn in Hhead.
    destruct (st_variables (handleRemoveVariable index s)) as [|v1 rest1];
      [discriminate|].
    injection Hhead as ->. eauto.
  - intros [= <-] (v0 & rest & Hvars). unfold handleAddVariable.
    destruct (_ && _); [|eauto]. cbn [st_variables]. rewrite Hvars. cbn. eauto.
Qed.

(** X14.  As long as no list of variables is loaded from a saved workflow,
    the first variable stays the one named "request": it cannot be removed
    or renamed, and nothing is ever put in front of it. *)
Theorem request_variable_stays_first trim actions s :
  Forall brings_no_variables actions ->
  steps trim initial actions = Some s ->
  exists v rest, st_variables s = mkVariable "request" v :: rest.
Proof.
  intros Hall Hrun.
  assert (Hgen : forall s0, starts_with_request s0 ->
                            steps trim s0 actions = Some s -> starts_with_request s).
  { clear Hrun. induction Hall as [|a actions Ha Hall IH]; intros s0 H0; cbn [steps].
    - intros [= <-]. exact H0.
    - destruct (step trim s0 a) as [s1|] eqn:E; [|discriminate].
      apply IH. exact (step_keeps_request _ _ _ _ Ha E H0). }
  apply (Hgen initial); [|exact Hrun]. exists "request", []. reflexivity.
Qed.

(** ** [handleTestApi] *)

(** The toast that closes a test. *)
Definition testToast (c : Completion ApiResponse) : UiEvent :=
  match c with
  | Return _ => ToastSuccess "API test successful"
  | Throw (ThrownError e) => ToastError (err_message e)
  | Throw (ThrownOther _) => ToastError "API test failed"
  end.

Lemma fromEntries_snoc vars v :
  fromEntries (vars ++ [v]) = <[var_name v := var_value v]> (fromEntries vars).
Proof. unfold fromEntries. rewrite foldl_app. reflexivity. Qed.

Section TestFacts.

Variable ApiError : JsValue -> Thrown.
Variable nullRead : string -> ErrorObj.

Ltac run_ui :=
  unfold mbind, U_bind, mret, U_ret, seq, later, pure, raise, emit, tryCatch,
    tryFinally, liftApi.

(** A test that passes the two guards of the handler. *)
Lemma handleTestApi_run net workflow watchedName s st :
  st_workerId s <> "" -> st_apiAuthToken s <> "" ->
  let o := testApi ApiError nullRead net (testParams workflow watchedName s) st in
  handleTestApi ApiError nullRead net workflow watchedName s st =
  mkRan (Return tt) (final o)
        (SetTestingApi true :: map Api (trace o) ++
         [testToast (completion o); SetTestingApi false]).
Proof.
  intros Hw Ht o. subst o. unfold handleTestApi.
  apply truthy_string_true in Hw, Ht. rewrite Hw, Ht. cbn [negb]. run_ui.
  destruct (testApi ApiError nullRead net (testParams workflow watchedName s) st)
    as [[a | [e | v]] st' tr]; cbn; rewrite <- ?app_assoc; reflexivity.
Qed.

(** X15.  [handleTestApi] never raises.  With an empty worker id or token
    it only shows one error toast: no request is sent, the table is not
    touched and the testing flag is not set.  Otherwise it sets the testing
    flag, calls [testApi] once, shows exactly one toast (success, the
    error's message, or "API test failed" for a value that is not an
    [Error]) and always clears the testing flag last. *)
Theorem handleTestApi_never_raises net workflow watchedName s st :
  let run := handleTestApi ApiError nullRead net workflow watchedName s st in
  let o := testApi ApiError nullRead net (testParams workflow watchedName s) st in
  ended run = Return tt /\
  ((st_workerId s = "" ->
    run = mkRan (Return tt) st [ToastError "Worker ID is required"]) /\
   (st_workerId s <> "" -> st_apiAuthToken s = "" ->
    run = mkRan (Return tt) st [ToastError "Authorization token is required"]) /\
   (st_workerId s <> "" -> st_apiAuthToken s <> "" ->
    table run = final o /\
    happened run =
      SetTestingApi true :: map Api (trace o) ++
      [match completion o with
       | Return _ => ToastSuccess "API test successful"
       | Throw (ThrownError e) => ToastError (err_message e)
       | Throw (ThrownOther _) => ToastError "API test failed"
       end; SetTestingApi false])).
Proof.
  intros run o. subst run o.
  destruct (decide (st_workerId s = "")) as [Hw | Hw].
  - assert (E : handleTestApi ApiError nullRead net workflow watchedName s st =
                mkRan (Return tt) st [ToastError "Worker ID is required"])
      by (unfold handleTestApi; rewrite Hw; reflexivity).
    rewrite E. repeat split; try reflexivity; intros; contradiction.
  - destruct (decide (st_apiAuthToken s = "")) as [Ht | Ht].
    + assert (E : handleTestApi ApiError nullRead net workflow watchedName s st =
                  mkRan (Return tt) st [ToastError "Authorization token is required"]).
      { unfold handleTestApi. apply truthy_string_true in Hw. rewrite Hw, Ht.
        reflexivity. }
      rewrite E. repeat split; try reflexivity; intros; contradiction.
    + rewrite (handleTestApi_run _ _ _ _ _ Hw Ht). cbv zeta.
      repeat split; try reflexivity; intros; contradiction.
Qed.

Lemma fromEntries_lookup vars k :
  fromEntries vars !! k =
  var_value <$> last (List.filter (fun v => JsString.eqb (var_name v) k) vars).
Proof.
  induction vars as [|v vars IH] using rev_ind; [reflexivity|].
  rewrite fromEntries_snoc, List.filter_app. cbn [List.filter].
  destruct (JsString.eqb (var_name v) k) eqn:E.
  - apply eqb_string_true in E. subst k. rewrite lookup_insert_eq, last_snoc.
    reflexivity.
  - apply eqb_string_false in E. rewrite lookup_insert_ne by exact E.
    rewrite app_nil_r. exact IH.
Qed.

(** X16.  The variables of a test request always hold the key [workflow],
    bound to the form's name field (the empty string when it is unset),
    whatever the variables of the form are -- a form variable named
    [workflow] is overridden.  Every other key is bound to the value of the
    last form variable of that name. *)
Theorem test_variables_always_hold_workflow (vars : list Var) watchedName :
  testVariables vars watchedName !! "workflow" = Some (default "" watchedName) /\
  forall k, k <> "workflow" ->
    testVariables vars watchedName !! k =
    var_value <$> last (List.filter (fun v => JsString.eqb (var_name v) k) vars).
Proof.
  unfold testVariables. split.
  - rewrite lookup_insert_eq. destruct watchedName as [[|c n]|]; reflexivity.
  - intros k Hk. rewrite lookup_insert_ne by congruence. apply fromEntries_lookup.
Qed.

Lemma testParams_has_workflow workflow watchedName s :
  propUndefined (variables (testParams workflow watchedName s)) "workflow" = false.
Proof.
  unfold propUndefined, testParams, testVariables. cbn [variables].
  rewrite lookup_insert_eq. reflexivity.
Qed.

(** X17.  A test from the form that is answered with a 2xx status and a
    decodable body writes no row at all: because the request always carries
    a [workflow] variable, the only effect on the table is that the saved
    workflow's earlier "API request successful" rows are deleted; the user
    is shown the success toast. *)
Theorem successful_form_test_writes_no_row net workflow watchedName s st r d :
  configured (testParams workflow watchedName s) ->
  net (url (apiConfig (testParams workflow watchedName s)))
      (requestInit (testParams workflow watchedName s)) = inr r ->
  resp_json r = inr d -> d <> JNull -> d <> JUndefined ->
  resp_ok r = true ->
  let run := handleTestApi ApiError nullRead net workflow watchedName s st in
  table run = List.filter (survives_preclear (testParams workflow watchedName s)) st /\
  (forall row, ~ In (Api (EvInsert row)) (happened run)) /\
  List.filter is_toast (happened run) = [ToastSuccess "API test successful"].
Proof.
  intros Hp Hnet Hjson Hnull Hundef Hok run. subst run.
  pose proof (readable_true _ Hnull Hundef) as Hread.
  destruct Hp as (Hw & Hw' & Ht & Ht').
  rewrite (handleTestApi_run _ _ _ _ _ Hw Ht). cbv zeta. cbn [table happened].
  assert (Hp : configured (testParams workflow watchedName s))
    by (repeat split; assumption).
  pose proof (inserted_decoded ApiError nullRead net _ st r d Hp Hnet Hjson Hread)
    as Hins.
  pose proof (completion_decoded ApiError nullRead net _ st r d Hp Hnet Hjson Hread)
    as Hcompl.
  rewrite Hok in Hins, Hcompl. rewrite app_nil_r in Hins.
  assert (Hstep : step5 (testParams workflow watchedName s) r d = []).
  { unfold step5. rewrite Hok, testParams_has_workflow.
    destruct (audited _); reflexivity. }
  rewrite Hstep in Hins.
  split; [|split].
  - destruct (final_structure ApiError nullRead net
                (testParams workflow watchedName s) st) as [-> | (Hno & _)];
      [|contradiction].
    rewrite Hins, app_nil_r. apply precleared_survivors.
  - intros row Hin. destruct Hin as [Hin | Hin]; [discriminate|].
    apply in_app_iff in Hin as [Hin | Hin].
    + apply in_map_iff in Hin as (e & [= ->] & Hin).
      assert (Hrow : In row (inserted (trace (testApi ApiError nullRead net
                       (testParams workflow watchedName s) st)))).
      { unfold inserted. apply list_elem_of_In, list_elem_of_omap.
        exists (EvInsert row). split; [apply list_elem_of_In; exact Hin | reflexivity]. }
      rewrite Hins in Hrow. destruct Hrow.
    + cbn in Hin. rewrite Hcompl in Hin. cbn in Hin. intuition discriminate.
  - rewrite Hcompl. cbn [testToast List.filter is_toast].
    rewrite List.filter_app. cbn [List.filter is_toast app].
    assert (Hnone : forall tr, List.filter is_toast (map Api tr) = [])
      by (induction tr as [|e tr IH]; [reflexivity | exact IH]).
    rewrite Hnone. reflexivity.
Qed.

(** X18.  Testing from the form before the workflow is saved (there is no
    [workflow] prop, hence no [workflowId]) never touches the table. *)
Theorem unsaved_form_test_leaves_table net watchedName s st :
  let run := handleTestApi ApiError nullRead net None watchedName s st in
  table run = st /\
  forall e, In (Api e) (happened run) -> is_store_access e = false.
Proof.
  intros run. subst run.
  destruct (decide (st_workerId s = "")) as [Hw | Hw].
  { unfold handleTestApi. rewrite Hw. cbn.
    split; [reflexivity|]. intros e [Hin | []]. discriminate. }
  destruct (decide (st_apiAuthToken s = "")) as [Ht | Ht].
  { unfold handleTestApi. apply truthy_string_true in Hw. rewrite Hw, Ht. cbn.
    split; [reflexivity|]. intros e [Hin | []]. discriminate. }
  rewrite (handleTestApi_run _ _ _ _ _ Hw Ht). cbv zeta. cbn [table happened].
  destruct (call_without_workflow ApiError nullRead net (testParams None watchedName s) st)
    as (Hfinal & Hquiet & _); [reflexivity|].
  split; [exact Hfinal|].
  intros e [Hin | Hin]; [discriminate|].
  apply in_app_iff in Hin as [Hin | Hin].
  - apply in_map_iff in Hin as (e' & [= ->] & Hin).
    rewrite List.Forall_forall in Hquiet. apply Hquiet. exact Hin.
  - cbn in Hin. destruct (completion _) as [a | [e0 | v]]; cbn in Hin;
      intuition discriminate.
Qed.

End TestFacts.

(** ** [onSubmit] *)

(** The message a [catch] block shows for [error], with its fallback. *)
Definition shownMessage (fallback : string) (error : Thrown) : string :=
  match error with
  | ThrownError e => err_message e
  | ThrownOther _ => fallback
  end.

(** The request [onSubmit] makes for [row]. *)
Definition saveRequest (workflow : option Workflow) (row : WorkflowRow) : SaveRequest :=
  match workflow with
  | Some w => Update row (wf_id w)
  | None => Insert row
  end.

Section SubmitFacts.

Variable trim : string -> string.
Variable captureStack : string -> option string.

Local Abbreviation submit := (onSubmit trim captureStack).

Ltac run_ui :=
  unfold mbind, U_bind, mret, U_ret, seq, later, pure, raise, emit, tryCatch,
    tryFinally, awaitUser, awaitSave.

(** What a submission does, case by case. *)
Definition submitEvents (backend : Backend) (workflow : option Workflow)
    (s : State) (data : WorkflowFormData) : list UiEvent :=
  let failure error :=
    [ConsoleError "Error:" error;
     ToastError (shownMessage "Failed to save workflow" error); SetSaving false] in
  match missingFields trim data s with
  | _ :: _ =>
      [SetSaving true;
       ToastError ("Missing required fields: " +:+
                   Stdlib.Strings.String.concat ", " (missingFields trim data s));
       SetSaving false; SetSaving false]
  | [] =>
      match getUser backend with
      | inl rejection => SetSaving true :: GetUser :: failure rejection
      | inr user =>
          match user with
          | Some (String c u) =>
              let request :=
                saveRequest workflow (workflowData trim data s (String c u)) in
              match save backend request with
              | inl rejection =>
                  SetSaving true :: GetUser :: Save request :: failure rejection
              | inr (Some msg) =>
                  SetSaving true :: GetUser :: Save request ::
                  ConsoleSupabaseError "Supabase error:" msg ::
                  failure (newError captureStack msg)
              | inr None =>
                  [SetSaving true; GetUser; Save request;
                   ToastSuccess (match workflow with
                                 | Some _ => "Workflow updated"
                                 | None => "Workflow created"
                                 end);
                   OnSave; SetSaving false]
              end
          | _ =>
              SetSaving true :: GetUser ::
              failure (newError captureStack "User not authenticated")
          end
      end
  end.

Lemma onSubmit_run backend workflow s data st :
  submit backend workflow s data st =
  mkRan (Return tt) st (submitEvents backend workflow s data).
Proof.
  unfold onSubmit, submitEvents, saveRequest, awaitUser, awaitSave. run_ui. cbv zeta.
  destruct (missingFields trim data s) as [|m ms]; cbn [length Nat.ltb Nat.leb];
    [|reflexivity].
  destruct (getUser backend) as [t | [[|c u]|]]; cbn; try reflexivity.
  destruct workflow as [w|];
    (match goal with |- context [save backend ?r] =>
       destruct (save backend r) as [t | [msg|]] end);
    cbn; reflexivity.
Qed.

Lemma pushed_nil (b : bool) (l : list string) (x : string) :
  (if b then l ++ [x] else l) = [] <-> b = false /\ l = [].
Proof.
  destruct b; split.
  - intros H. apply app_eq_nil in H as [_ H]. discriminate.
  - intros [H _]. discriminate.
  - auto.
  - intros [_ H]. exact H.
Qed.

Lemma blank_false x : blank trim x = false <-> trim x <> "".
Proof. unfold blank. rewrite negb_false_iff. apply truthy_string_true. Qed.

Lemma missingFields_nil data s :
  missingFields trim data s = [] <->
  (exists n, data_name data = Some n /\ trim n <> "") /\
  trim (st_workerId s) <> "" /\ trim (st_apiAuthToken s) <> "" /\
  st_variables s <> [].
Proof.
  unfold missingFields. cbv zeta. rewrite !pushed_nil, !blank_false.
  rewrite Nat.eqb_neq.
  assert (Hlen : length (st_variables s) <> 0%nat <-> st_variables s <> [])
    by (destruct (st_variables s); cbn; split; congruence).
  rewrite Hlen.
  assert (Hname : match data_name data with
                  | Some n => blank trim n
                  | None => true
                  end = false <->
                  exists n, data_name data = Some n /\ trim n <> "").
  { destruct (data_name data) as [n|].
    - rewrite blank_false. split; [eauto|]. intros (n0 & [= <-] & H). exact H.
    - split; [discriminate|]. intros (n0 & H & _). discriminate. }
  rewrite Hname. tauto.
Qed.

Lemma authorization_fixed token :
  authorization (authorization token) = authorization token.
Proof.
  destruct (JsString.startsWith token "Bearer ") eqn:E.
  - assert (H : authorization token = token)
      by (unfold authorization; rewrite E; reflexivity).
    rewrite !H. reflexivity.
  - assert (H : authorization token = "Bearer " +:+ token)
      by (unfold authorization; rewrite E; reflexivity).
    rewrite H. apply authorization_prefixed.
Qed.

(** X19.  [onSubmit] never raises and never touches [workflow_logs]: every
    failure is caught and shown.  It starts by setting the saving flag,
    ends by clearing it, shows exactly one toast, and asks for at most one
    write to the [workflows] table. *)
Theorem onSubmit_never_raises backend workflow s data st :
  let run := onSubmit trim captureStack backend workflow s data st in
  ended run = Return tt /\ table run = st /\
  head (happened run) = Some (SetSaving true) /\
  last (happened run) = Some (SetSaving false) /\
  length (List.filter is_toast (happened run)) = 1%nat /\
  (length (List.filter is_save (happened run)) <= 1)%nat.
Proof.
  intros run. subst run. rewrite onSubmit_run. cbn [ended table happened].
  unfold submitEvents. cbv zeta.
  destruct (missingFields trim data s) as [|m ms];
    [|cbn; repeat split; lia].
  destruct (getUser backend) as [t | [[|c u]|]]; try (cbn; repeat split; lia).
  destruct (save backend _) as [t | [msg|]]; cbn; repeat split; lia.
Qed.

(** X20.  When the name is missing or blank, or the worker id or the token
    is blank, or there is no variable ([blank]: empty once trimmed),
    [onSubmit] shows one toast listing the missing fields and stops: the
    user is not looked up and nothing is written.  The list names exactly
    the fields that are missing, in the order Workflow Name, Worker ID,
    Authorization, At least one variable. *)
Theorem onSubmit_blank_field_stops_before_any_call backend workflow s data st :
  data_name data = None \/ (exists n, data_name data = Some n /\ trim n = "") \/
  trim (st_workerId s) = "" \/ trim (st_apiAuthToken s) = "" \/
  st_variables s = [] ->
  let missing := missingFields trim data s in
  happened (onSubmit trim captureStack backend workflow s data st) =
    [SetSaving true;
     ToastError ("Missing required fields: " +:+
                 Stdlib.Strings.String.concat ", " missing);
     SetSaving false; SetSaving false] /\
  missing <> [] /\
  missing `sublist_of`
    ["Workflow Name"; "Worker ID"; "Authorization"; "At least one variable"] /\
  (In "Workflow Name" missing <->
   data_name data = None \/ exists n, data_name data = Some n /\ trim n = "") /\
  (In "Worker ID" missing <-> trim (st_workerId s) = "") /\
  (In "Authorization" missing <-> trim (st_apiAuthToken s) = "") /\
  (In "At least one variable" missing <-> st_variables s = []).
Proof.
  intros Hblank missing. subst missing.
  assert (Hne : missingFields trim data s <> []).
  { intros Hnil. apply missingFields_nil in Hnil
      as ((n & Hn & Hn') & Hw & Ht & Hv).
    destruct Hblank as [H | [(n0 & H & H0) | [H | [H | H]]]]; congruence. }
  split.
  { rewrite onSubmit_run. cbn [happened]. unfold submitEvents.
    destruct (missingFields trim data s); [contradiction | reflexivity]. }
  split; [exact Hne|]. clear Hne Hblank.
  unfold missingFields, blank. cbv zeta.
  rewrite <- (truthy_string_false (trim (st_workerId s))).
  rewrite <- (truthy_string_false (trim (st_apiAuthToken s))).
  assert (Hname : (data_name data = None \/
                   exists n, data_name data = Some n /\ trim n = "") <->
                  match data_name data with
                  | Some n => negb (JsString.truthy (trim n))
                  | None => true
                  end = true).
  { destruct (data_name data) as [n|].
    - rewrite negb_true_iff, truthy_string_false. split.
      + intros [H | (n0 & [= <-] & H)]; [discriminate | exact H].
      + eauto.
    - split; auto. }
  rewrite Hname. clear Hname.
  destruct (match data_name data with
            | Some n => negb (JsString.truthy (trim n))
            | None => true
            end);
    destruct (JsString.truthy (trim (st_workerId s)));
    destruct (JsString.truthy (trim (st_apiAuthToken s)));
    destruct (st_variables s) as [|v vars]; cbn;
    (split; [repeat constructor|]);
    repeat split; intros; try discriminate; try tauto; intuition discriminate.
Qed.

(** X21.  When nothing is missing and the user is authenticated,
    [onSubmit] asks for exactly one write: an update of the row with the
    workflow's id when a workflow is being edited, an insert otherwise.
    The row holds the worker id trimmed, every variable's name and value
    trimmed (same number, same order), the fixed call description, the
    user's id, and the trimmed token with "Bearer " put in front unless it
    is there already -- the value [testApi] would send for it, and one that
    [testApi] sends unchanged.  The name is saved as entered. *)
Theorem onSubmit_saves_normalised_row backend workflow s data st userId :
  missingFields trim data s = [] ->
  getUser backend = inr (Some userId) -> userId <> "" ->
  exists row,
    List.filter is_save
      (happened (onSubmit trim captureStack backend workflow s data st)) =
      [Save (match workflow with
             | Some w => Update row (wf_id w)
             | None => Insert row
             end)] /\
    w_created_by row = userId /\
    w_name row = data_name data /\
    w_worker_id row = trim (st_workerId s) /\
    w_api_auth_token row = authorization (trim (st_apiAuthToken s)) /\
    (exists rest, w_api_auth_token row = "Bearer " +:+ rest) /\
    authorization (w_api_auth_token row) = w_api_auth_token row /\
    w_variables row =
      map (fun v => mkVariable (trim (var_name v)) (trim (var_value v)))
          (st_variables s) /\
    length (w_variables row) = length (st_variables s) /\
    w_api_config row =
      mkApiConfig "post" "https://api.mindstudio.ai/developer/v2/workers/run"
                  "application/json".
Proof.
  intros Hok Huser Hid. exists (workflowData trim data s userId).
  split.
  - rewrite onSubmit_run. cbn [happened]. unfold submitEvents. cbv zeta.
    rewrite Hok, Huser. destruct userId as [|c u]; [contradiction|].
    unfold saveRequest.
    destruct workflow as [w|];
      (match goal with |- context [save backend ?r] =>
         destruct (save backend r) as [t | [msg|]] end); reflexivity.
  - cbn [workflowData w_created_by w_name w_worker_id w_api_auth_token
         w_variables w_api_config].
    fold (authorization (trim (st_apiAuthToken s))).
    repeat split; try reflexivity.
    + unfold authorization.
      destruct (JsString.startsWith (trim (st_apiAuthToken s)) "Bearer ") eqn:E.
      * apply startsWith_iff in E. exact E.
      * eauto.
    + apply authorization_fixed.
    + apply length_map.
Qed.

(** X22.  [onSave] is called exactly when nothing is missing, the user is
    authenticated and the write resolves without an error; the toast is
    then "Workflow updated" for an edited workflow and "Workflow created"
    for a new one.  In every other case no success toast is shown. *)
Theorem onSave_called_iff_saved backend workflow s data st :
  let run := onSubmit trim captureStack backend workflow s data st in
  (In OnSave (happened run) <->
   missingFields trim data s = [] /\
   exists userId,
     getUser backend = inr (Some userId) /\ userId <> "" /\
     save backend (match workflow with
                   | Some w => Update (workflowData trim data s userId) (wf_id w)
                   | None => Insert (workflowData trim data s userId)
                   end) = inr None) /\
  (forall text, In (ToastSuccess text) (happened run) ->
     In OnSave (happened run) /\
     text = match workflow with
            | Some _ => "Workflow updated"
            | None => "Workflow created"
            end).
Proof.
  intros run. subst run. rewrite onSubmit_run. cbn [happened].
  unfold submitEvents, saveRequest. cbv zeta.
  destruct (missingFields trim data s) as [|m ms].
  2:{ split; [split|].
      - cbn. intuition discriminate.
      - intros [H _]. discriminate.
      - intros text H. cbn in H. intuition discriminate. }
  destruct (getUser backend) as [t | [[|c u]|]].
  1,2,4: (split; [split|];
    [ cbn; intuition discriminate
    | intros (_ & userId & Hu & Hne & _); try discriminate;
      injection Hu as <-; contradiction
    | intros text H; cbn in H; intuition discriminate ]).
  destruct (save backend _) as [t | [msg|]] eqn:Hsave.
  1,2: (split; [split|];
    [ cbn; intuition discriminate
    | intros (_ & userId & [= <-] & _ & Hs); rewrite Hs in Hsave; discriminate
    | intros text H; cbn in H; intuition discriminate ]).
  split; [split|].
  - intros _. split; [reflexivity|]. exists (String c u).
    split; [reflexivity|]. split; [discriminate | exact Hsave].
  - intros _. cbn. tauto.
  - intros text H. cbn in H.
    destruct H as [H | [H | [H | [H | [H | [H | []]]]]]]; try discriminate.
    injection H as <-. split; [cbn; tauto|]. destruct workflow; reflexivity.
Qed.

End SubmitFacts.

(** ** The form at concrete inputs *)

Definition sampleState : State :=
  mkState false TabGeneral [mkVariable "request" "request"] false
          (mkVariable "" "") false "secret" "worker-1" false false.

Definition savedWorkflow : Workflow :=
  mkWorkflow "w1" (JBool false) (JBool false) (Some "worker-1") (Some "secret") None.

Definition sampleData : WorkflowFormData :=
  mkData (Some "Nightly") JNull (JStr "active") (JArr []) (JObj []) JNull.

Definition sampleBackend : Backend :=
  mkBackend (inr (Some "user-1")) (fun _ => inr None).

Lemma variables_never_empty_witness :
  exists s,
    steps spaceTrim initial
      [TypeNewName " region "; TypeNewValue "eu"; AddVariable;
       RemoveVariable 1; RemoveVariable 0] = Some s /\
    st_variables s <> [] /\
    ~ In "At least one variable" (missingFields spaceTrim sampleData s).
Proof.
  eexists. split; [reflexivity|].
  apply (variables_never_empty spaceTrim
           [TypeNewName " region "; TypeNewValue "eu"; AddVariable;
            RemoveVariable 1; RemoveVariable 0]).
  reflexivity.
Defined.

Lemma request_variable_stays_first_witness :
  let actions :=
    [WorkflowReceived (Some savedWorkflow); ChangeValue 0 "question";
     TypeNewName "region"; TypeNewValue "eu"; AddVariable; RemoveVariable 0] in
  Forall brings_no_variables actions /\
  exists s, steps spaceTrim initial actions = Some s /\
            exists v rest, st_variables s = mkVariable "request" v :: rest.
Proof.
  intros actions.
  assert (Hall : Forall brings_no_variables actions)
    by (repeat constructor).
  split; [exact Hall|]. eexists. split; [reflexivity|].
  apply (request_variable_stays_first spaceTrim actions _ Hall). reflexivity.
Defined.

Lemma successful_form_test_witness :
  let net := answering 200 "OK" (inr (JObj [("result", JStr "ok")])) in
  let stale := mkRow "w1" "info" "API request successful" (ResponseDetails 200 JNull) in
  let run := handleTestApi sampleApiError sampleNullRead net (Some savedWorkflow)
               (Some "Nightly") sampleState [stale] in
  configured (testParams (Some savedWorkflow) (Some "Nightly") sampleState) /\
  table run = [] /\
  List.filter is_toast (happened run) = [ToastSuccess "API test successful"].
Proof.
  intros net stale run.
  assert (Hp : configured (testParams (Some savedWorkflow) (Some "Nightly") sampleState))
    by (repeat split; discriminate).
  split; [exact Hp|].
  destruct (successful_form_test_writes_no_row sampleApiError sampleNullRead
              net (Some savedWorkflow) (Some "Nightly") sampleState [stale]
              (mkResponse 200 "OK" (inr (JObj [("result", JStr "ok")])))
              (JObj [("result", JStr "ok")]) Hp eq_refl eq_refl
              ltac:(discriminate) ltac:(discriminate) eq_refl)
    as (Htable & _ & Htoast).
  split; [exact Htable | exact Htoast].
Defined.

Lemma onSubmit_blank_field_witness :
  let s := mkState false TabGeneral [mkVariable "request" "request"] false
             (mkVariable "" "") false "secret" "  " false false in
  spaceTrim (st_workerId s) = "" /\
  happened (onSubmit spaceTrim sampleStack sampleBackend None s sampleData []) =
    [SetSaving true; ToastError "Missing required fields: Worker ID";
     SetSaving false; SetSaving false].
Proof.
  intros s. split; [reflexivity|].
  exact (proj1 (onSubmit_blank_field_stops_before_any_call spaceTrim sampleStack
                  sampleBackend None s sampleData []
                  (or_intror (or_intror (or_introl eq_refl))))).
Defined.

Lemma onSubmit_saves_normalised_row_witness :
  missingFields spaceTrim sampleData sampleState = [] /\
  exists row,
    List.filter is_save
      (happened (onSubmit spaceTrim sampleStack sampleBackend (Some savedWorkflow)
                   sampleState sampleData [])) = [Save (Update row "w1")] /\
    w_api_auth_token row = "Bearer secret".
Proof.
  split; [reflexivity|].
  destruct (onSubmit_saves_normalised_row spaceTrim sampleStack sampleBackend
              (Some savedWorkflow) sampleState sampleData [] "user-1"
              eq_refl eq_refl ltac:(discriminate))
    as (row & Hsave & _ & _ & _ & Htoken & _).
  exists row. split; [exact Hsave | exact Htoken].
Defined.

End Form.

(* ===================================================================== *)
(** * The further properties of [testApi] at concrete inputs *)
(* ===================================================================== *)

Lemma call_keeps_unrelated_rows_witness :
  let other := mkRow "w2" "info" "API request successful" (ResponseDetails 200 JNull) in
  let net := answering 200 "OK" (inr (JObj [("result", JStr "ok")])) in
  In other [other] /\
  workflowId apiTest <> Some (workflow_id other) /\
  In other (final (run net apiTest [other])).
Proof.
  intros other net.
  assert (Hin : In other [other]) by (left; reflexivity).
  assert (Hwf : workflowId apiTest <> Some (workflow_id other)) by discriminate.
  split; [exact Hin|]. split; [exact Hwf|].
  exact (call_keeps_unrelated_rows sampleApiError sampleNullRead net apiTest
           [other] other Hin (or_introl Hwf)).
Defined.

Lemma call_table_witness :
  let net := answering 200 "OK" (inr (JObj [("result", JStr "ok")])) in
  let stale := mkRow "w1" "info" "API request successful" (ResponseDetails 200 JNull) in
  configured apiTest /\
  final (run net apiTest [stale]) =
    List.filter (survives_preclear apiTest) [stale] ++
    inserted (trace (run net apiTest [stale])).
Proof.
  intros net stale.
  assert (Hp : configured apiTest) by (repeat split; discriminate).
  split; [exact Hp|].
  exact (proj1 (call_table_is_preclear_then_inserts sampleApiError sampleNullRead
                  net apiTest [stale] Hp)).
Defined.

Lemma call_sends_exactly_one_request_witness :
  let net := answering 503 "Service Unavailable" (inl (ThrownOther JUndefined)) in
  configured workflowRun /\
  length (List.filter is_network_call (trace (run net workflowRun []))) = 1%nat.
Proof.
  intros net.
  assert (Hp : configured workflowRun) by (repeat split; discriminate).
  split; [exact Hp|].
  unfold run.
  rewrite (call_sends_exactly_one_request sampleApiError sampleNullRead
             net workflowRun [] Hp).
  reflexivity.
Defined.

Lemma returned_response_is_truthy_witness :
  let net := answering 200 "OK" (inr (JObj [("result", JStr "")])) in
  completion (run net adHoc []) =
    Return (mkApiResponse true (JStr "No response received")) /\
  truthy (JStr "No response received") = true.
Proof.
  intros net.
  assert (Hret : completion (run net adHoc []) =
                 Return (mkApiResponse true (JStr "No response received")))
    by reflexivity.
  split; [exact Hret|].
  exact (proj1 (proj2 (returned_response_is_truthy sampleApiError sampleNullRead
                         net adHoc [] _ Hret))).
Defined.

Lemma call_returns_iff_witness :
  let body := JObj [("result", JStr "ok")] in
  exists a, completion (run (answering 204 "No Content" (inr body)) adHoc []) = Return a.
Proof.
  intros body.
  apply (proj2 (call_returns_iff sampleApiError sampleNullRead
                  (answering 204 "No Content" (inr body)) adHoc [])).
  split; [repeat split; discriminate|].
  exists (mkResponse 204 "No Content" (inr body)), body.
  repeat split; try reflexivity; try discriminate; cbn; lia.
Defined.

Lemma null_body_witness :
  let net := answering 500 "Internal Server Error" (inr JNull) in
  configured apiTest /\
  completion (run net apiTest []) = Throw (ThrownError (sampleNullRead "result")) /\
  inserted (trace (run net apiTest [])) = [].
Proof.
  intros net.
  assert (Hp : configured apiTest) by (repeat split; discriminate).
  split; [exact Hp|].
  destruct (null_body_raises_type_error sampleApiError sampleNullRead net apiTest []
              (mkResponse 500 "Internal Server Error" (inr JNull)) Hp eq_refl eq_refl)
    as (Hraised & _ & Hrows).
  split; [exact Hraised | exact (Hrows eq_refl)].
Defined.

Lemma successful_call_is_idempotent_witness :
  let net := answering 200 "OK" (inr (JObj [("result", JStr "ok")])) in
  let stale := mkRow "w1" "info" "API request successful" (ResponseDetails 200 JNull) in
  completion (run net apiTest [stale; stale]) = Return (mkApiResponse true (JStr "ok")) /\
  final (run net apiTest (final (run net apiTest [stale; stale]))) =
  final (run net apiTest [stale; stale]).
Proof.
  intros net stale.
  assert (Hret : completion (run net apiTest [stale; stale]) =
                 Return (mkApiResponse true (JStr "ok"))) by reflexivity.
  split; [exact Hret|].
  exact (proj2 (successful_call_is_idempotent_on_table sampleApiError sampleNullRead
                  net apiTest [stale; stale] _ Hret)).
Defined.

Lemma failures_are_reported_exactly_once_witness :
  let error := ThrownError (mkError "Failed to fetch" None) in
  configured apiTest /\
  List.filter is_console_error (trace (run (unreachable error) apiTest [])) =
  [EvConsoleError "Error occurred:"
     (mkPayload "Failed to fetch" None "worker-1" "https://api.example.test/run" "post")].
Proof.
  intros error.
  assert (Hp : configured apiTest) by (repeat split; discriminate).
  split; [exact Hp|].
  exact (failures_are_reported_exactly_once sampleApiError sampleNullRead
           (unreachable error) apiTest [] Hp).
Defined.

Lemma failed_api_test_witness :
  let error := ThrownError (mkError "Failed to fetch" None) in
  let stale := mkRow "w1" "info" "API request successful" (ResponseDetails 200 JNull) in
  configured apiTest /\
  variables apiTest !! "workflow" = None /\
  completion (run (unreachable error) apiTest [stale]) = Throw error /\
  final (run (unreachable error) apiTest [stale]) = [].
Proof.
  intros error stale.
  assert (Hp : configured apiTest) by (repeat split; discriminate).
  split; [exact Hp|]. split; [reflexivity|].
  destruct (failed_api_test_erases_marker_and_writes_nothing
              sampleApiError sampleNullRead (unreachable error) apiTest [stale] error
              Hp eq_refl (or_introl eq_refl))
    as (Hraised & _ & Hfinal).
  split; [exact Hraised | exact Hfinal].
Defined.

Lemma retest_leaves_the_latest_success_row_witness :
  let body := JObj [("result", JStr "ok")] in
  let net := answering 200 "OK" (inr body) in
  workflowId apiTest = Some "w1" /\
  variables apiTest !! "workflow" = None /\
  success_rows "w1" (final (run net apiTest (final (run net apiTest [])))) =
  [mkRow "w1" "info" "API request successful" (ResponseDetails 200 body)].
Proof.
  intros body net. split; [reflexivity|]. split; [reflexivity|].
  destruct (retest_leaves_the_latest_success_row sampleApiError sampleNullRead
              net net apiTest apiTest [] "w1"
              (mkApiResponse true (JStr "ok")) (mkApiResponse true (JStr "ok"))
              eq_refl ltac:(discriminate) eq_refl eq_refl eq_refl)
    as (r & d & Hnet & Hjson & Hrows).
  injection Hnet as <-. injection Hjson as <-. exact Hrows.
Defined.

Lemma rejected_error_ignores_status_witness :
  let body := JObj [("message", JStr "boom")] in
  configured apiTest /\
  completion (run (answering 404 "" (inr body)) apiTest []) =
  completion (run (answering 500 "" (inr body)) apiTest []).
Proof.
  intros body.
  assert (Hp : configured apiTest) by (repeat split; discriminate).
  split; [exact Hp|].
  exact (rejected_error_ignores_status sampleApiError sampleNullRead
           (answering 404 "" (inr body)) (answering 500 "" (inr body)) apiTest []
           (mkResponse 404 "" (inr body)) (mkResponse 500 "" (inr body)) body
           Hp eq_refl eq_refl eq_refl eq_refl eq_refl eq_refl eq_refl eq_refl).
Defined.
